(** * The Kubernetes client facade of falco-talon

    A shallow embedding of [internal/kubernetes/client/client.go]: the typed
    fetch operations, the dynamic dispatch [GetTarget], the owner resolution
    [Get*FromPod] and [GetContainers], followed by the properties the
    specification states about them.

    Go values are modelled as follows.
    - A pointer [*T] is a [ptr T]: [None] is [nil].
    - An [error] is an [option error]: [None] is [nil].  Two error values of
      the package are told apart by their message only, both [errors.New]
      and [fmt.Errorf] build an [errorString].
    - A Go result pair [(p, err)] is a Rocq pair, so that an object together
      with an error, and neither of them, are both representable.
    - A call runs in the [Api] monad: it threads the trace of the reads
      issued against the cluster API and may end in a run-time panic. *)

From Stdlib Require Import String Ascii List Bool.
Import ListNotations.
Open Scope string_scope.
Open Scope list_scope.

(** ** Go run-time values *)

Definition ptr (T : Type) : Type := option T.

Inductive StatusReason : Type :=
| NotFound
| Forbidden
| Unauthorized
| ServerTimeout
| InternalError.

(** The dynamic types an [error] of this program can hold. *)
Inductive error : Type :=
| errorString (s : string)
| StatusError (reason : StatusReason) (message : string)
| TransportError (message : string).

Definition errors_New (text : string) : error := errorString text.

(** [fmt.Sprintf], restricted to what the package uses: the verb [%v], whose
    operands are given already rendered.  A verb without operand prints
    [%!v(MISSING)] and operands left over are reported after the text, as
    the Go formatter does. *)
Fixpoint extraOperands (a : list string) : string :=
  match a with
  | [] => ""
  | [x] => ("string=" ++ x)%string
  | x :: rest => ("string=" ++ x ++ ", " ++ extraOperands rest)%string
  end.

Fixpoint Sprintf (format : string) (a : list string) : string :=
  match format with
  | EmptyString =>
      match a with
      | [] => ""
      | _ :: _ => ("%!(EXTRA " ++ extraOperands a ++ ")")%string
      end
  | String c rest =>
      match rest with
      | String d rest' =>
          if (Ascii.eqb c "%" && Ascii.eqb d "v")%bool then
            match a with
            | [] => ("%!v(MISSING)" ++ Sprintf rest' [])%string
            | x :: a' => (x ++ Sprintf rest' a')%string
            end
          else String c (Sprintf rest a)
      | EmptyString => String c (Sprintf rest a)
      end
  end.

Definition Errorf (format : string) (a : list string) : error :=
  errors_New (Sprintf format a).

(** ** The API objects

    Only the fields the package reads, and the identity every object
    carries, are kept. *)

Module metav1.

Record OwnerReference : Type := {
  OwnerReference_APIVersion : string;
  OwnerReference_Kind : string;
  OwnerReference_Name : string;
  OwnerReference_UID : string
}.

Record ObjectMeta : Type := {
  ObjectMeta_Name : string;
  ObjectMeta_Namespace : string;
  ObjectMeta_OwnerReferences : list OwnerReference
}.

End metav1.

Module corev1.

Record Container : Type := {
  Container_Name : string;
  Container_Image : string
}.

Record PodSpec : Type := {
  PodSpec_Containers : list Container
}.

Record Pod : Type := {
  Pod_ObjectMeta : metav1.ObjectMeta;
  Pod_Spec : PodSpec
}.

Record Namespace : Type := { Namespace_ObjectMeta : metav1.ObjectMeta }.
Record ConfigMap : Type := { ConfigMap_ObjectMeta : metav1.ObjectMeta }.
Record Secret : Type := { Secret_ObjectMeta : metav1.ObjectMeta }.
Record Service : Type := { Service_ObjectMeta : metav1.ObjectMeta }.
Record ServiceAccount : Type := { ServiceAccount_ObjectMeta : metav1.ObjectMeta }.

End corev1.

Module appsv1.

Record Deployment : Type := { Deployment_ObjectMeta : metav1.ObjectMeta }.
Record DaemonSet : Type := { DaemonSet_ObjectMeta : metav1.ObjectMeta }.
Record StatefulSet : Type := { StatefulSet_ObjectMeta : metav1.ObjectMeta }.
Record ReplicaSet : Type := { ReplicaSet_ObjectMeta : metav1.ObjectMeta }.

End appsv1.

Module rbacv1.

Record Role : Type := { Role_ObjectMeta : metav1.ObjectMeta }.
Record ClusterRole : Type := { ClusterRole_ObjectMeta : metav1.ObjectMeta }.

End rbacv1.

(** ** The session

    [k8s.Clientset] is not part of the package: it is the collaborator
    every method reads.  It is taken by its contract, one read per resource
    kind returning an object and an error, as a function of the namespace
    and the name (of the name alone for the cluster-scoped kinds). *)

Definition answer (T : Type) : Type := (ptr T * option error)%type.

Record Clientset : Type := {
  pods : string -> string -> answer corev1.Pod;
  namespaces : string -> answer corev1.Namespace;
  configMaps : string -> string -> answer corev1.ConfigMap;
  secrets : string -> string -> answer corev1.Secret;
  services : string -> string -> answer corev1.Service;
  serviceAccounts : string -> string -> answer corev1.ServiceAccount;
  deployments : string -> string -> answer appsv1.Deployment;
  daemonSets : string -> string -> answer appsv1.DaemonSet;
  statefulSets : string -> string -> answer appsv1.StatefulSet;
  replicaSets : string -> string -> answer appsv1.ReplicaSet;
  roles : string -> string -> answer rbacv1.Role;
  clusterRoles : string -> answer rbacv1.ClusterRole
}.

(** [RestConfig] is set by [Init] and read by no method below. *)
Record Client : Type := {
  Client_Clientset : Clientset;
  Client_RestConfig : string
}.

(** ** Calls: trace of reads and panics *)

Inductive Resource : Type :=
| ResPods | ResNamespaces | ResConfigMaps | ResSecrets | ResServices
| ResServiceAccounts | ResDeployments | ResDaemonSets | ResStatefulSets
| ResReplicaSets | ResRoles | ResClusterRoles.

(** One read against the cluster API; [reqNamespace] is [None] for a
    cluster-scoped read. *)
Record Request : Type := mkRequest {
  reqResource : Resource;
  reqNamespace : option string;
  reqName : string
}.

Inductive RuntimeError : Type :=
| IndexOutOfRange (index length : nat)
| NilDereference.

Inductive Outcome (A : Type) : Type :=
| Return (a : A)
| Panic (e : RuntimeError).

Arguments Return {A} a.
Arguments Panic {A} e.

Definition Api (A : Type) : Type := list Request -> Outcome A * list Request.

Definition ret {A : Type} (a : A) : Api A := fun tr => (Return a, tr).

Definition bind {A B : Type} (m : Api A) (k : A -> Api B) : Api B :=
  fun tr =>
    match m tr with
    | (Return a, tr') => k a tr'
    | (Panic e, tr') => (Panic e, tr')
    end.

Definition panic {A : Type} (e : RuntimeError) : Api A := fun tr => (Panic e, tr).

Declare Scope api_scope.
Delimit Scope api_scope with api.
Notation "x <- m ;; k" := (bind m (fun x => k))
  (at level 100, m at next level, right associativity) : api_scope.
Notation "' p <- m ;; k" := (bind m (fun x => match x with p => k end))
  (at level 100, p pattern, m at next level, right associativity) : api_scope.
Open Scope api_scope.

(** The read [....Get(context.Background(), name, metav1.GetOptions{})]. *)
Definition Get {T : Type} (r : Resource) (namespace : option string)
  (name : string) (a : answer T) : Api (answer T) :=
  fun tr => (Return a, tr ++ [mkRequest r namespace name]).

(** [*p] *)
Definition deref {T : Type} (p : ptr T) : Api T :=
  match p with
  | Some v => ret v
  | None => panic NilDereference
  end.

(** [s[0]] *)
Definition index0 {T : Type} (s : list T) : Api T :=
  match s with
  | x :: _ => ret x
  | [] => panic (IndexOutOfRange 0 0)
  end.

(** ** The facade *)

Section Facade.

(** The text [%v] prints for a [*corev1.Pod]: the pod's generated [String]
    method, which lives in the API package. *)
Variable Pod_String : corev1.Pod -> string.

Definition GetPod (client : Client) (pod namespace : string)
  : Api (answer corev1.Pod) :=
  '(p, err) <- Get ResPods (Some namespace) pod
                 (pods (Client_Clientset client) namespace pod) ;;
  match err with
  | Some _ =>
      ret (None, Some (Errorf "the pod '%v' in the namespace '%v' doesn't exist"
                              [pod; namespace]))
  | None => ret (p, None)
  end.

Definition GetContainers (pod : ptr corev1.Pod) : Outcome (list string) :=
  match pod with
  | None => Panic NilDereference
  | Some p =>
      Return (fold_left (fun c i => c ++ [corev1.Container_Name i])
                        (corev1.PodSpec_Containers (corev1.Pod_Spec p)) [])
  end.

Definition GetDeployment (client : Client) (name namespace : string)
  : Api (answer appsv1.Deployment) :=
  '(p, err) <- Get ResDeployments (Some namespace) name
                 (deployments (Client_Clientset client) namespace name) ;;
  match err with
  | Some _ =>
      ret (None, Some (Errorf "the deployment '%v' in the namespace '%v' doesn't exist"
                              [name; namespace]))
  | None => ret (p, None)
  end.

Definition GetDaemonSet (client : Client) (name namespace : string)
  : Api (answer appsv1.DaemonSet) :=
  '(p, err) <- Get ResDaemonSets (Some namespace) name
                 (daemonSets (Client_Clientset client) namespace name) ;;
  match err with
  | Some _ =>
      ret (None, Some (Errorf "the daemonset '%v' in the namespace '%v' doesn't exist"
                              [name; namespace]))
  | None => ret (p, None)
  end.

Definition GetStatefulSet (client : Client) (name namespace : string)
  : Api (answer appsv1.StatefulSet) :=
  '(p, err) <- Get ResStatefulSets (Some namespace) name
                 (statefulSets (Client_Clientset client) namespace name) ;;
  match err with
  | Some _ =>
      ret (None, Some (Errorf "the statefulset '%v' in the namespace '%v' doesn't exist"
                              [name; namespace]))
  | None => ret (p, None)
  end.

Definition GetReplicaSet (client : Client) (name namespace : string)
  : Api (answer appsv1.ReplicaSet) :=
  '(p, err) <- Get ResReplicaSets (Some namespace) name
                 (replicaSets (Client_Clientset client) namespace name) ;;
  match err with
  | Some _ =>
      ret (None, Some (Errorf "the replicaset '%v' in the namespace '%v' doesn't exist"
                              [name; namespace]))
  | None => ret (p, None)
  end.

Definition GetDeploymentFromPod (client : Client) (pod : ptr corev1.Pod)
  : Api (answer appsv1.Deployment) :=
  p <- deref pod ;;
  o <- index0 (metav1.ObjectMeta_OwnerReferences (corev1.Pod_ObjectMeta p)) ;;
  let podName := metav1.OwnerReference_Name o in
  let namespace := metav1.ObjectMeta_Namespace (corev1.Pod_ObjectMeta p) in
  '(r, err) <- GetDeployment client podName namespace ;;
  match err with
  | Some e => ret (None, Some e)
  | None =>
      match r with
      | None =>
          ret (None, Some (Errorf "can't find the deployment for the pod'%v' in namespace '%v'"
                                  [Pod_String p; namespace]))
      | Some _ => ret (r, None)
      end
  end.

Definition GetDaemonsetFromPod (client : Client) (pod : ptr corev1.Pod)
  : Api (answer appsv1.DaemonSet) :=
  p <- deref pod ;;
  o <- index0 (metav1.ObjectMeta_OwnerReferences (corev1.Pod_ObjectMeta p)) ;;
  let podName := metav1.OwnerReference_Name o in
  let namespace := metav1.ObjectMeta_Namespace (corev1.Pod_ObjectMeta p) in
  '(r, err) <- GetDaemonSet client podName namespace ;;
  match err with
  | Some e => ret (None, Some e)
  | None =>
      match r with
      | None =>
          ret (None, Some (Errorf "can't find the daemonset for the pod'%v' in namespace '%v'"
                                  [Pod_String p; namespace]))
      | Some _ => ret (r, None)
      end
  end.

Definition GetStatefulsetFromPod (client : Client) (pod : ptr corev1.Pod)
  : Api (answer appsv1.StatefulSet) :=
  p <- deref pod ;;
  o <- index0 (metav1.ObjectMeta_OwnerReferences (corev1.Pod_ObjectMeta p)) ;;
  let podName := metav1.OwnerReference_Name o in
  let namespace := metav1.ObjectMeta_Namespace (corev1.Pod_ObjectMeta p) in
  '(r, err) <- GetStatefulSet client podName namespace ;;
  match err with
  | Some e => ret (None, Some e)
  | None =>
      match r with
      | None =>
          ret (None, Some (Errorf "can't find the statefulset for the pod'%v' in namespace '%v'"
                                  [Pod_String p; namespace]))
      | Some _ => ret (r, None)
      end
  end.

Definition GetReplicasetFromPod (client : Client) (pod : ptr corev1.Pod)
  : Api (answer appsv1.ReplicaSet) :=
  p <- deref pod ;;
  o <- index0 (metav1.ObjectMeta_OwnerReferences (corev1.Pod_ObjectMeta p)) ;;
  let podName := metav1.OwnerReference_Name o in
  let namespace := metav1.ObjectMeta_Namespace (corev1.Pod_ObjectMeta p) in
  '(r, err) <- GetReplicaSet client podName namespace ;;
  match err with
  | Some e => ret (None, Some e)
  | None =>
      match r with
      | None =>
          ret (None, Some (Errorf "can't find the replicaset for the pod'%v' in namespace '%v'"
                                  [Pod_String p; namespace]))
      | Some _ => ret (r, None)
      end
  end.

Definition GetNamespace (client : Client) (name : string)
  : Api (answer corev1.Namespace) :=
  '(p, err) <- Get ResNamespaces None name
                 (namespaces (Client_Clientset client) name) ;;
  match err with
  | Some _ => ret (None, Some (Errorf "the namespace '%v' doesn't exist" [name]))
  | None => ret (p, None)
  end.

Definition GetConfigMap (client : Client) (name namespace : string)
  : Api (answer corev1.ConfigMap) :=
  '(p, err) <- Get ResConfigMaps (Some namespace) name
                 (configMaps (Client_Clientset client) namespace name) ;;
  match err with
  | Some _ =>
      ret (None, Some (Errorf "the configmap '%v' in the namespace '%v' doesn't exist"
                              [name; namespace]))
  | None => ret (p, None)
  end.

Definition GetSecret (client : Client) (name namespace : string)
  : Api (answer corev1.Secret) :=
  '(p, err) <- Get ResSecrets (Some namespace) name
                 (secrets (Client_Clientset client) namespace name) ;;
  match err with
  | Some _ =>
      ret (None, Some (Errorf "the secret '%v' in the namespace '%v' doesn't exist"
                              [name; namespace]))
  | None => ret (p, None)
  end.

Definition GetService (client : Client) (name namespace : string)
  : Api (answer corev1.Service) :=
  '(p, err) <- Get ResServices (Some namespace) name
                 (services (Client_Clientset client) namespace name) ;;
  match err with
  | Some _ =>
      ret (None, Some (Errorf "the service '%v' in the namespace '%v' doesn't exist"
                              [name; namespace]))
  | None => ret (p, None)
  end.

Definition GetServiceAccount (client : Client) (name namespace : string)
  : Api (answer corev1.ServiceAccount) :=
  '(p, err) <- Get ResServiceAccounts (Some namespace) name
                 (serviceAccounts (Client_Clientset client) namespace name) ;;
  match err with
  | Some _ =>
      ret (None, Some (Errorf "the serviceaccount '%v' in the namespace '%v' doesn't exist"
                              [name; namespace]))
  | None => ret (p, None)
  end.

Definition GetRole (client : Client) (name namespace : string)
  : Api (answer rbacv1.Role) :=
  '(p, err) <- Get ResRoles (Some namespace) name
                 (roles (Client_Clientset client) namespace name) ;;
  match err with
  | Some _ =>
      ret (None, Some (Errorf "the role '%v' in the namespace '%v' doesn't exist"
                              [name; namespace]))
  | None => ret (p, None)
  end.

Definition GetClusterRole (client : Client) (name namespace : string)
  : Api (answer rbacv1.ClusterRole) :=
  '(p, err) <- Get ResClusterRoles None name
                 (clusterRoles (Client_Clientset client) name) ;;
  match err with
  | Some _ =>
      ret (None, Some (Errorf "the clusterrole '%v' in the namespace '%v' doesn't exist"
                              [name; namespace]))
  | None => ret (p, None)
  end.

(** The value an [interface{}] holds: a typed pointer, which may itself be
    [nil].  The [nil] interface is [None]. *)
Inductive Target : Type :=
| TNamespace (p : ptr corev1.Namespace)
| TConfigMap (p : ptr corev1.ConfigMap)
| TSecret (p : ptr corev1.Secret)
| TDeployment (p : ptr appsv1.Deployment)
| TDaemonSet (p : ptr appsv1.DaemonSet)
| TStatefulSet (p : ptr appsv1.StatefulSet)
| TReplicaSet (p : ptr appsv1.ReplicaSet)
| TService (p : ptr corev1.Service)
| TServiceAccount (p : ptr corev1.ServiceAccount)
| TRole (p : ptr rbacv1.Role)
| TClusterRole (p : ptr rbacv1.ClusterRole).

Definition any : Type := option Target.

(** [return f(...)] where [f] returns a typed pointer with an error and the
    caller an [interface{}] with an error: the pointer is boxed, the error
    passed on. *)
Definition boxed {T : Type} (box : ptr T -> Target) (m : Api (answer T))
  : Api (any * option error) :=
  '(p, err) <- m ;; ret (Some (box p), err).

Definition GetTarget (client : Client) (resource name namespace : string)
  : Api (any * option error) :=
  if resource =? "namespaces" then boxed TNamespace (GetNamespace client name)
  else if resource =? "configmaps" then boxed TConfigMap (GetConfigMap client name namespace)
  else if resource =? "secrets" then boxed TSecret (GetSecret client name namespace)
  else if resource =? "deployments" then boxed TDeployment (GetDeployment client name namespace)
  else if resource =? "daemonsets" then boxed TDeployment (GetDeployment client name namespace)
  else if resource =? "statefulsets" then boxed TStatefulSet (GetStatefulSet client name namespace)
  else if resource =? "replicasets" then boxed TReplicaSet (GetReplicaSet client name namespace)
  else if resource =? "services" then boxed TService (GetService client name namespace)
  else if resource =? "serviceaccounts" then boxed TServiceAccount (GetServiceAccount client name namespace)
  else if resource =? "roles" then boxed TRole (GetRole client name namespace)
  else if resource =? "clusterroles" then boxed TClusterRole (GetClusterRole client name namespace)
  else ret (None, Some (errors_New "the resource doesn't exist or its type is not yet managed")).

End Facade.

(** * Properties *)

(** ** Vocabulary of the specification *)

(** The closed enumeration of resource-type tags. *)
Definition ResourceTypeTags : list string :=
  ["namespaces"; "configmaps"; "secrets"; "deployments"; "daemonsets";
   "statefulsets"; "replicasets"; "services"; "serviceaccounts"; "roles";
   "clusterroles"].

(** The flattened failure of a namespaced read, and of a cluster-scoped
    read, which has no namespace clause. *)
Definition doesntExist (kind name namespace : string) : error :=
  errorString ("the " ++ kind ++ " '" ++ name ++ "' in the namespace '"
               ++ namespace ++ "' doesn't exist")%string.

Definition doesntExistClusterWide (kind name : string) : error :=
  errorString ("the " ++ kind ++ " '" ++ name ++ "' doesn't exist")%string.

Definition UnsupportedResourceType : error :=
  errorString "the resource doesn't exist or its type is not yet managed".

Definition OwnerResolutionFailure (kind pod namespace : string) : error :=
  errorString ("can't find the " ++ kind ++ " for the pod'" ++ pod
               ++ "' in namespace '" ++ namespace ++ "'")%string.

(** What a typed fetch makes of the answer of the session. *)
Definition flattened {T : Type} (failure : error) (a : answer T) : answer T :=
  match a with
  | (_, Some _) => (None, Some failure)
  | (p, None) => (p, None)
  end.

(** What an owner resolution makes of the answer of its typed fetch. *)
Definition resolved {T : Type} (failure : error) (a : answer T) : answer T :=
  match a with
  | (_, Some e) => (None, Some e)
  | (None, None) => (None, Some failure)
  | (Some d, None) => (Some d, None)
  end.

(** The value a call returns, if it returns. *)
Definition returned {A : Type} (r : Outcome A * list Request) : option A :=
  match fst r with
  | Return a => Some a
  | Panic _ => None
  end.

(** The reads a call has issued, given the trace it started from. *)
Definition trace {A : Type} (r : Outcome A * list Request) : list Request :=
  snd r.

(** Exactly one of: an object without error, an error without object. *)
Definition objectXorError {T : Type} (a : answer T) : Prop :=
  (fst a <> None /\ snd a = None) \/ (fst a = None /\ snd a <> None).

(** The object of the kind a tag names that the session holds under a name
    and a namespace: what its read of that kind answers without error. *)
Definition held {T : Type} (box : ptr T -> Target) (a : answer T) : option Target :=
  match a with
  | (Some o, None) => Some (box (Some o))
  | _ => None
  end.

Definition sessionHolds (cs : Clientset) (tag name namespace : string)
  : option Target :=
  if tag =? "namespaces" then held TNamespace (namespaces cs name)
  else if tag =? "configmaps" then held TConfigMap (configMaps cs namespace name)
  else if tag =? "secrets" then held TSecret (secrets cs namespace name)
  else if tag =? "deployments" then held TDeployment (deployments cs namespace name)
  else if tag =? "daemonsets" then held TDaemonSet (daemonSets cs namespace name)
  else if tag =? "statefulsets" then held TStatefulSet (statefulSets cs namespace name)
  else if tag =? "replicasets" then held TReplicaSet (replicaSets cs namespace name)
  else if tag =? "services" then held TService (services cs namespace name)
  else if tag =? "serviceaccounts" then held TServiceAccount (serviceAccounts cs namespace name)
  else if tag =? "roles" then held TRole (roles cs namespace name)
  else if tag =? "clusterroles" then held TClusterRole (clusterRoles cs name)
  else None.

(** The errors a typed fetch can return. *)
Inductive NotFoundOrTransportError : error -> Prop :=
| FromGetPod client n ns tr p e tr' :
    GetPod client n ns tr = (Return (p, Some e), tr') -> NotFoundOrTransportError e
| FromGetDeployment client n ns tr p e tr' :
    GetDeployment client n ns tr = (Return (p, Some e), tr') -> NotFoundOrTransportError e
| FromGetDaemonSet client n ns tr p e tr' :
    GetDaemonSet client n ns tr = (Return (p, Some e), tr') -> NotFoundOrTransportError e
| FromGetStatefulSet client n ns tr p e tr' :
    GetStatefulSet client n ns tr = (Return (p, Some e), tr') -> NotFoundOrTransportError e
| FromGetReplicaSet client n ns tr p e tr' :
    GetReplicaSet client n ns tr = (Return (p, Some e), tr') -> NotFoundOrTransportError e
| FromGetNamespace client n tr p e tr' :
    GetNamespace client n tr = (Return (p, Some e), tr') -> NotFoundOrTransportError e
| FromGetConfigMap client n ns tr p e tr' :
    GetConfigMap client n ns tr = (Return (p, Some e), tr') -> NotFoundOrTransportError e
| FromGetSecret client n ns tr p e tr' :
    GetSecret client n ns tr = (Return (p, Some e), tr') -> NotFoundOrTransportError e
| FromGetService client n ns tr p e tr' :
    GetService client n ns tr = (Return (p, Some e), tr') -> NotFoundOrTransportError e
| FromGetServiceAccount client n ns tr p e tr' :
    GetServiceAccount client n ns tr = (Return (p, Some e), tr') -> NotFoundOrTransportError e
| FromGetRole client n ns tr p e tr' :
    GetRole client n ns tr = (Return (p, Some e), tr') -> NotFoundOrTransportError e
| FromGetClusterRole client n ns tr p e tr' :
    GetClusterRole client n ns tr = (Return (p, Some e), tr') -> NotFoundOrTransportError e.

(** A typed fetch of a given client keeps the contract: a [nil] object
    exactly when the error is not [nil]. *)
Definition noPartialResult {T : Type} (fetch : string -> string -> Api (answer T))
  : Prop :=
  forall n ns tr r e tr',
    fetch n ns tr = (Return (r, e), tr') -> (r = None <-> e <> None).

(** A typed fetch flattens every failure of its read into one error, which
    depends on the name and the namespace alone. *)
Definition flattensTo {T : Type}
  (fetch : Client -> string -> string -> Api (answer T))
  (lookup : Clientset -> string -> string -> answer T)
  (failure : string -> string -> error) : Prop :=
  forall client n ns tr o cause,
    lookup (Client_Clientset client) ns n = (o, Some cause) ->
    returned (fetch client n ns tr) = Some (None, Some (failure n ns)).

(** A typed fetch never returns an object together with an error: it drops
    the object when the read fails, passes the object of the session on
    when the read succeeds, and so returns neither exactly when the session
    answers with neither. *)
Definition passesThrough {T : Type}
  (fetch : Client -> string -> string -> Api (answer T))
  (lookup : Clientset -> string -> string -> answer T) : Prop :=
  forall client n ns tr,
    let a := lookup (Client_Clientset client) ns n in
    exists r,
      returned (fetch client n ns tr) = Some r
      /\ ~ (fst r <> None /\ snd r <> None)
      /\ (snd a <> None -> fst r = None /\ snd r <> None)
      /\ (snd a = None -> r = (fst a, None))
      /\ ((fst r = None /\ snd r = None) <-> a = (None, None))
      /\ ((snd a = None -> fst a <> None) -> objectXorError r).

(** An owner resolution issues the read of its typed fetch and hands the
    failure of that fetch on, which is never its own failure. *)
Definition propagates {T : Type} (resolution fetch : Api (answer T))
  (read : Request) (ownerFailure : error) (tr : list Request) : Prop :=
  trace (resolution tr) = tr ++ [read]
  /\ trace (fetch tr) = tr ++ [read]
  /\ forall r e tr',
       fetch tr = (Return (r, Some e), tr') ->
       resolution tr = (Return (None, Some e), tr')
       /\ NotFoundOrTransportError e
       /\ e <> ownerFailure.

(** An owner resolution returns without panic after one read, named by
    the first owner reference; pods of the same namespace whose first owner
    reference bears the same name lead to the same read and the same
    object. *)
Definition readsFirstOwnerOnly {T : Type}
  (resolution : ptr corev1.Pod -> Api (answer T)) (res : Resource)
  (p : corev1.Pod) (o : metav1.OwnerReference) (tr : list Request) : Prop :=
  let ns := metav1.ObjectMeta_Namespace (corev1.Pod_ObjectMeta p) in
  (exists r,
      resolution (Some p) tr
      = (Return r, tr ++ [mkRequest res (Some ns) (metav1.OwnerReference_Name o)]))
  /\ forall p',
       metav1.ObjectMeta_Namespace (corev1.Pod_ObjectMeta p') = ns ->
       option_map metav1.OwnerReference_Name
         (hd_error (metav1.ObjectMeta_OwnerReferences (corev1.Pod_ObjectMeta p')))
       = Some (metav1.OwnerReference_Name o) ->
       trace (resolution (Some p') tr) = trace (resolution (Some p) tr)
       /\ option_map fst (returned (resolution (Some p') tr))
          = option_map fst (returned (resolution (Some p) tr)).

(** An owner resolution returns the error of its typed fetch or a
    controller, and not the failure of the resolution itself. *)
Definition neverOwnerFailure {T : Type} (resolution fetch : Api (answer T))
  (ownerFailure : error) (tr : list Request) : Prop :=
  exists r tr',
    resolution tr = (Return r, tr')
    /\ ((exists e fr, r = (None, Some e) /\ fetch tr = (Return (fr, Some e), tr'))
        \/ (exists d, r = (Some d, None)))
    /\ snd r <> Some ownerFailure.

(** ** Sessions to run the facade against

    A session backed by a fixed set of objects.  It answers as the API
    client does: the object found, or the zero object together with a
    [NotFound] status. *)

Record Cluster : Type := {
  clusterPods : list corev1.Pod;
  clusterNamespaces : list corev1.Namespace;
  clusterConfigMaps : list corev1.ConfigMap;
  clusterSecrets : list corev1.Secret;
  clusterServices : list corev1.Service;
  clusterServiceAccounts : list corev1.ServiceAccount;
  clusterDeployments : list appsv1.Deployment;
  clusterDaemonSets : list appsv1.DaemonSet;
  clusterStatefulSets : list appsv1.StatefulSet;
  clusterReplicaSets : list appsv1.ReplicaSet;
  clusterRolesIn : list rbacv1.Role;
  clusterClusterRoles : list rbacv1.ClusterRole
}.

Definition zeroMeta : metav1.ObjectMeta :=
  {| metav1.ObjectMeta_Name := "";
     metav1.ObjectMeta_Namespace := "";
     metav1.ObjectMeta_OwnerReferences := [] |}.

Definition serve {T : Type} (meta : T -> metav1.ObjectMeta) (zero : T)
  (objects : list T) (namespace name : string) : answer T :=
  match find (fun o => (metav1.ObjectMeta_Namespace (meta o) =? namespace)
                       && (metav1.ObjectMeta_Name (meta o) =? name))%bool objects with
  | Some o => (Some o, None)
  | None => (Some zero, Some (StatusError NotFound "not found"))
  end.

Definition serveClusterWide {T : Type} (meta : T -> metav1.ObjectMeta) (zero : T)
  (objects : list T) (name : string) : answer T :=
  match find (fun o => metav1.ObjectMeta_Name (meta o) =? name) objects with
  | Some o => (Some o, None)
  | None => (Some zero, Some (StatusError NotFound "not found"))
  end.

Definition connect (c : Cluster) : Clientset :=
  {| pods := serve corev1.Pod_ObjectMeta
               {| corev1.Pod_ObjectMeta := zeroMeta;
                  corev1.Pod_Spec := {| corev1.PodSpec_Containers := [] |} |}
               (clusterPods c);
     namespaces := serveClusterWide corev1.Namespace_ObjectMeta
               {| corev1.Namespace_ObjectMeta := zeroMeta |} (clusterNamespaces c);
     configMaps := serve corev1.ConfigMap_ObjectMeta
               {| corev1.ConfigMap_ObjectMeta := zeroMeta |} (clusterConfigMaps c);
     secrets := serve corev1.Secret_ObjectMeta
               {| corev1.Secret_ObjectMeta := zeroMeta |} (clusterSecrets c);
     services := serve corev1.Service_ObjectMeta
               {| corev1.Service_ObjectMeta := zeroMeta |} (clusterServices c);
     serviceAccounts := serve corev1.ServiceAccount_ObjectMeta
               {| corev1.ServiceAccount_ObjectMeta := zeroMeta |} (clusterServiceAccounts c);
     deployments := serve appsv1.Deployment_ObjectMeta
               {| appsv1.Deployment_ObjectMeta := zeroMeta |} (clusterDeployments c);
     daemonSets := serve appsv1.DaemonSet_ObjectMeta
               {| appsv1.DaemonSet_ObjectMeta := zeroMeta |} (clusterDaemonSets c);
     statefulSets := serve appsv1.StatefulSet_ObjectMeta
               {| appsv1.StatefulSet_ObjectMeta := zeroMeta |} (clusterStatefulSets c);
     replicaSets := serve appsv1.ReplicaSet_ObjectMeta
               {| appsv1.ReplicaSet_ObjectMeta := zeroMeta |} (clusterReplicaSets c);
     roles := serve rbacv1.Role_ObjectMeta
               {| rbacv1.Role_ObjectMeta := zeroMeta |} (clusterRolesIn c);
     clusterRoles := serveClusterWide rbacv1.ClusterRole_ObjectMeta
               {| rbacv1.ClusterRole_ObjectMeta := zeroMeta |} (clusterClusterRoles c) |}.

Definition clientOf (c : Cluster) : Client :=
  {| Client_Clientset := connect c; Client_RestConfig := "https://10.96.0.1:443" |}.

Definition named (name namespace : string) : metav1.ObjectMeta :=
  {| metav1.ObjectMeta_Name := name;
     metav1.ObjectMeta_Namespace := namespace;
     metav1.ObjectMeta_OwnerReferences := [] |}.

Definition ownedBy (kind owner : string) : metav1.OwnerReference :=
  {| metav1.OwnerReference_APIVersion := "apps/v1";
     metav1.OwnerReference_Kind := kind;
     metav1.OwnerReference_Name := owner;
     metav1.OwnerReference_UID := "" |}.

(** A pod of namespace [ns1] owned by [web], with two containers. *)
Definition webPod : corev1.Pod :=
  {| corev1.Pod_ObjectMeta :=
       {| metav1.ObjectMeta_Name := "web-7c9d";
          metav1.ObjectMeta_Namespace := "ns1";
          metav1.ObjectMeta_OwnerReferences := [ownedBy "Deployment" "web"] |};
     corev1.Pod_Spec :=
       {| corev1.PodSpec_Containers :=
            [ {| corev1.Container_Name := "app"; corev1.Container_Image := "web:1" |};
              {| corev1.Container_Name := "sidecar"; corev1.Container_Image := "envoy:1" |} ] |} |}.

(** A pod nothing owns. *)
Definition barePod : corev1.Pod :=
  {| corev1.Pod_ObjectMeta := named "debug" "ns1";
     corev1.Pod_Spec := {| corev1.PodSpec_Containers := [] |} |}.

Definition fluentd : appsv1.DaemonSet :=
  {| appsv1.DaemonSet_ObjectMeta := named "fluentd" "kube-system" |}.

Definition web : appsv1.Deployment :=
  {| appsv1.Deployment_ObjectMeta := named "web" "ns1" |}.

(** A cluster with the deployment [web], the daemonset [fluentd] and no
    cluster role. *)
Definition demo : Cluster :=
  {| clusterPods := [webPod; barePod];
     clusterNamespaces := [ {| corev1.Namespace_ObjectMeta := named "ns1" "" |};
                            {| corev1.Namespace_ObjectMeta := named "kube-system" "" |} ];
     clusterConfigMaps := [];
     clusterSecrets := [];
     clusterServices := [];
     clusterServiceAccounts := [];
     clusterDeployments := [web];
     clusterDaemonSets := [fluentd];
     clusterStatefulSets := [];
     clusterReplicaSets := [];
     clusterRolesIn := [];
     clusterClusterRoles := [] |}.

(** A cluster with nothing in it. *)
Definition vacant : Cluster :=
  {| clusterPods := [];
     clusterNamespaces := [];
     clusterConfigMaps := [];
     clusterSecrets := [];
     clusterServices := [];
     clusterServiceAccounts := [];
     clusterDeployments := [];
     clusterDaemonSets := [];
     clusterStatefulSets := [];
     clusterReplicaSets := [];
     clusterRolesIn := [];
     clusterClusterRoles := [] |}.

(** A rendering of pods to run the owner resolutions with. *)
Definition podLabel (p : corev1.Pod) : string :=
  (metav1.ObjectMeta_Namespace (corev1.Pod_ObjectMeta p) ++ "/"
   ++ metav1.ObjectMeta_Name (corev1.Pod_ObjectMeta p))%string.

From Stdlib Require Import Lia.

(** ** The twelve typed fetches under one view *)

(** A call of a typed fetch with its arguments. *)
Inductive FetchCall : Type :=
| CallGetPod (pod namespace : string)
| CallGetDeployment (name namespace : string)
| CallGetDaemonSet (name namespace : string)
| CallGetStatefulSet (name namespace : string)
| CallGetReplicaSet (name namespace : string)
| CallGetNamespace (name : string)
| CallGetConfigMap (name namespace : string)
| CallGetSecret (name namespace : string)
| CallGetService (name namespace : string)
| CallGetServiceAccount (name namespace : string)
| CallGetRole (name namespace : string)
| CallGetClusterRole (name namespace : string).

(** The error of a call, its object left aside. *)
Definition failureOf {T : Type} (m : Api (answer T)) : Api (option error) :=
  '(_, err) <- m ;; ret err.

Definition runCall (client : Client) (k : FetchCall) : Api (option error) :=
  match k with
  | CallGetPod n ns => failureOf (GetPod client n ns)
  | CallGetDeployment n ns => failureOf (GetDeployment client n ns)
  | CallGetDaemonSet n ns => failureOf (GetDaemonSet client n ns)
  | CallGetStatefulSet n ns => failureOf (GetStatefulSet client n ns)
  | CallGetReplicaSet n ns => failureOf (GetReplicaSet client n ns)
  | CallGetNamespace n => failureOf (GetNamespace client n)
  | CallGetConfigMap n ns => failureOf (GetConfigMap client n ns)
  | CallGetSecret n ns => failureOf (GetSecret client n ns)
  | CallGetService n ns => failureOf (GetService client n ns)
  | CallGetServiceAccount n ns => failureOf (GetServiceAccount client n ns)
  | CallGetRole n ns => failureOf (GetRole client n ns)
  | CallGetClusterRole n ns => failureOf (GetClusterRole client n ns)
  end.

Definition calledName (k : FetchCall) : string :=
  match k with
  | CallGetPod n _ | CallGetDeployment n _ | CallGetDaemonSet n _
  | CallGetStatefulSet n _ | CallGetReplicaSet n _ | CallGetNamespace n
  | CallGetConfigMap n _ | CallGetSecret n _ | CallGetService n _
  | CallGetServiceAccount n _ | CallGetRole n _ | CallGetClusterRole n _ => n
  end.

(** No single quote in the text. *)
Fixpoint quoteFree (s : string) : bool :=
  match s with
  | EmptyString => true
  | String c rest => (negb (Ascii.eqb c "'") && quoteFree rest)%bool
  end.

(** The resource whose typed pointer an interface value holds, and whether
    that pointer is [nil]. *)
Definition targetResource (t : Target) : Resource :=
  match t with
  | TNamespace _ => ResNamespaces
  | TConfigMap _ => ResConfigMaps
  | TSecret _ => ResSecrets
  | TDeployment _ => ResDeployments
  | TDaemonSet _ => ResDaemonSets
  | TStatefulSet _ => ResStatefulSets
  | TReplicaSet _ => ResReplicaSets
  | TService _ => ResServices
  | TServiceAccount _ => ResServiceAccounts
  | TRole _ => ResRoles
  | TClusterRole _ => ResClusterRoles
  end.

Definition isNilPointer {T : Type} (p : ptr T) : bool :=
  match p with
  | None => true
  | Some _ => false
  end.

Definition holdsNilPointer (t : Target) : bool :=
  match t with
  | TNamespace p => isNilPointer p
  | TConfigMap p => isNilPointer p
  | TSecret p => isNilPointer p
  | TDeployment p => isNilPointer p
  | TDaemonSet p => isNilPointer p
  | TStatefulSet p => isNilPointer p
  | TReplicaSet p => isNilPointer p
  | TService p => isNilPointer p
  | TServiceAccount p => isNilPointer p
  | TRole p => isNilPointer p
  | TClusterRole p => isNilPointer p
  end.

(** A session that gives every read the same answer. *)
Definition uniform (a : forall T : Type, answer T) : Client :=
  {| Client_Clientset :=
       {| pods := fun _ _ => a _;
          namespaces := fun _ => a _;
          configMaps := fun _ _ => a _;
          secrets := fun _ _ => a _;
          services := fun _ _ => a _;
          serviceAccounts := fun _ _ => a _;
          deployments := fun _ _ => a _;
          daemonSets := fun _ _ => a _;
          statefulSets := fun _ _ => a _;
          replicaSets := fun _ _ => a _;
          roles := fun _ _ => a _;
          clusterRoles := fun _ => a _ |};
     Client_RestConfig := "" |}.

(** A session that refuses every read, and one that answers every read
    with neither object nor error. *)
Definition forbidding : Client :=
  uniform (fun T => (None, Some (StatusError Forbidden "forbidden"))).

Definition mute : Client := uniform (fun T => (None, None)).

(** ** The package client and [Init] *)

Module configuration.

(** The configuration package, of which [Init] reads one field. *)
Record Configuration : Type := { Configuration_KubeConfig : string }.

End configuration.

(** The struct [Client] as [Init] fills it: both fields are pointers.  A
    [rest.Config] is kept as the address it names, as [Client_RestConfig]
    is. *)
Record ClientStruct : Type := {
  ClientStruct_Clientset : ptr Clientset;
  ClientStruct_RestConfig : ptr string
}.

(** The calls [Init] makes outside the package, in order. *)
Inductive InitCall : Type :=
| CallGetConfiguration
| CallBuildConfigFromFlags (masterUrl kubeconfigPath : string)
| CallInClusterConfig
| CallNewForConfig (config : ptr string).

(** What a run of [Init] leaves: the value returned unless it panics, the
    package variable [client], and the calls made. *)
Record Initialised : Type := {
  initReturn : Outcome (option error);
  initClient : ptr ClientStruct;
  initCalls : list InitCall
}.

Section Bootstrap.

(** What the collaborators of [Init] answer: [configuration.GetConfiguration],
    [clientcmd.BuildConfigFromFlags], [rest.InClusterConfig] and
    [k8s.NewForConfig]. *)
Variable GetConfiguration : ptr configuration.Configuration.
Variable BuildConfigFromFlags : string -> string -> ptr string * option error.
Variable InClusterConfig : ptr string * option error.
Variable NewForConfig : ptr string -> ptr Clientset * option error.

(** [client] is the value of the package variable when [Init] starts. *)
Definition Init (client : ptr ClientStruct) : Initialised :=
  let fresh := {| ClientStruct_Clientset := None; ClientStruct_RestConfig := None |} in
  match GetConfiguration with
  | None =>
      {| initReturn := Panic NilDereference;
         initClient := Some fresh;
         initCalls := [CallGetConfiguration] |}
  | Some config =>
      let kubeConfig := configuration.Configuration_KubeConfig config in
      let '(built, call) :=
        if negb (kubeConfig =? "")
        then (BuildConfigFromFlags "" kubeConfig, CallBuildConfigFromFlags "" kubeConfig)
        else (InClusterConfig, CallInClusterConfig) in
      let '(restConfig, err) := built in
      let configured :=
        {| ClientStruct_Clientset := None; ClientStruct_RestConfig := restConfig |} in
      match err with
      | Some e =>
          {| initReturn := Return (Some e);
             initClient := Some configured;
             initCalls := [CallGetConfiguration; call] |}
      | None =>
          let '(clientset, err') := NewForConfig restConfig in
          let connected :=
            {| ClientStruct_Clientset := clientset;
               ClientStruct_RestConfig := restConfig |} in
          match err' with
          | Some e =>
              {| initReturn := Return (Some e);
                 initClient := Some connected;
                 initCalls := [CallGetConfiguration; call; CallNewForConfig restConfig] |}
          | None =>
              {| initReturn := Return None;
                 initClient := Some connected;
                 initCalls := [CallGetConfiguration; call; CallNewForConfig restConfig] |}
          end
      end
  end.

Definition GetClient (client : ptr ClientStruct) : ptr ClientStruct := client.

End Bootstrap.

(** Collaborators to run [Init] with: a kubeconfig file that loads, no
    in-cluster environment, and a cluster that accepts the connection. *)
Definition fromFile : ptr configuration.Configuration :=
  Some {| configuration.Configuration_KubeConfig := "/etc/talon/kubeconfig" |}.

Definition inCluster : ptr configuration.Configuration :=
  Some {| configuration.Configuration_KubeConfig := "" |}.

Definition loadsFile (masterUrl kubeconfigPath : string) : ptr string * option error :=
  (Some "https://10.96.0.1:443", None).

Definition noServiceAccount : ptr string * option error :=
  (None, Some (errorString "unable to load in-cluster configuration")).

Definition accepts (config : ptr string) : ptr Clientset * option error :=
  (Some (connect demo), None).

(** The package variable after an earlier successful [Init]. *)
Definition working : ptr ClientStruct :=
  Some {| ClientStruct_Clientset := Some (connect demo);
          ClientStruct_RestConfig := Some "https://10.96.0.1:443" |}.

(** The error a failing call returns, and the read it issues. *)
Definition failureText (k : FetchCall) : error :=
  match k with
  | CallGetPod n ns => doesntExist "pod" n ns
  | CallGetDeployment n ns => doesntExist "deployment" n ns
  | CallGetDaemonSet n ns => doesntExist "daemonset" n ns
  | CallGetStatefulSet n ns => doesntExist "statefulset" n ns
  | CallGetReplicaSet n ns => doesntExist "replicaset" n ns
  | CallGetNamespace n => doesntExistClusterWide "namespace" n
  | CallGetConfigMap n ns => doesntExist "configmap" n ns
  | CallGetSecret n ns => doesntExist "secret" n ns
  | CallGetService n ns => doesntExist "service" n ns
  | CallGetServiceAccount n ns => doesntExist "serviceaccount" n ns
  | CallGetRole n ns => doesntExist "role" n ns
  | CallGetClusterRole n ns => doesntExist "clusterrole" n ns
  end.

Definition readOf (k : FetchCall) : Request :=
  match k with
  | CallGetPod n ns => mkRequest ResPods (Some ns) n
  | CallGetDeployment n ns => mkRequest ResDeployments (Some ns) n
  | CallGetDaemonSet n ns => mkRequest ResDaemonSets (Some ns) n
  | CallGetStatefulSet n ns => mkRequest ResStatefulSets (Some ns) n
  | CallGetReplicaSet n ns => mkRequest ResReplicaSets (Some ns) n
  | CallGetNamespace n => mkRequest ResNamespaces None n
  | CallGetConfigMap n ns => mkRequest ResConfigMaps (Some ns) n
  | CallGetSecret n ns => mkRequest ResSecrets (Some ns) n
  | CallGetService n ns => mkRequest ResServices (Some ns) n
  | CallGetServiceAccount n ns => mkRequest ResServiceAccounts (Some ns) n
  | CallGetRole n ns => mkRequest ResRoles (Some ns) n
  | CallGetClusterRole n _ => mkRequest ResClusterRoles None n
  end.

(** A pod pointer an owner resolution cannot index: [nil], or a pod
    without owner reference. *)
Definition ownerless (pod : ptr corev1.Pod) : Prop :=
  match pod with
  | None => True
  | Some p => metav1.ObjectMeta_OwnerReferences (corev1.Pod_ObjectMeta p) = []
  end.

(** An owner resolution returns the controller the session holds under the
    name of the first owner reference, after that one read. *)
Definition resolvesHeld {T : Type}
  (resolution : ptr corev1.Pod -> Api (answer T))
  (lookup : string -> string -> answer T) (res : Resource)
  (p : corev1.Pod) (o : metav1.OwnerReference) (tr : list Request) : Prop :=
  let ns := metav1.ObjectMeta_Namespace (corev1.Pod_ObjectMeta p) in
  let name := metav1.OwnerReference_Name o in
  forall d,
    lookup ns name = (Some d, None) ->
    resolution (Some p) tr = (Return (Some d, None), tr ++ [mkRequest res (Some ns) name]).

(** An owner resolution fails with its own error exactly when the session
    answers the read with neither object nor error. *)
Definition ownerFailureIffNeither {T : Type}
  (resolution : ptr corev1.Pod -> Api (answer T))
  (lookup : string -> string -> answer T) (ownerFailure : error)
  (p : corev1.Pod) (o : metav1.OwnerReference) (tr : list Request) : Prop :=
  let ns := metav1.ObjectMeta_Namespace (corev1.Pod_ObjectMeta p) in
  let name := metav1.OwnerReference_Name o in
  returned (resolution (Some p) tr) = Some (None, Some ownerFailure)
  <-> lookup ns name = (None, None).

(** An owner resolution and [GetTarget] under the tag of its kind issue the
    same read; the controller or the error the one returns, the other
    returns too, boxed. *)
Definition agreesWithDispatch {T : Type} (box : ptr T -> Target)
  (resolution : Api (answer T)) (dispatch : Api (any * option error))
  (tr : list Request) : Prop :=
  trace (resolution tr) = trace (dispatch tr)
  /\ (forall d, returned (resolution tr) = Some (Some d, None) ->
                returned (dispatch tr) = Some (Some (box (Some d)), None))
  /\ (forall t e, returned (dispatch tr) = Some (t, Some e) ->
                  returned (resolution tr) = Some (None, Some e)
                  /\ t = Some (box None)).

(** A cluster with the cluster role [admin] and the secret [token]. *)
Definition admin : rbacv1.ClusterRole :=
  {| rbacv1.ClusterRole_ObjectMeta := named "admin" "" |}.

Definition token : corev1.Secret :=
  {| corev1.Secret_ObjectMeta := named "token" "ns1" |}.

Definition governed : Cluster :=
  {| clusterPods := [webPod];
     clusterNamespaces := [ {| corev1.Namespace_ObjectMeta := named "ns1" "" |} ];
     clusterConfigMaps := [];
     clusterSecrets := [token];
     clusterServices := [];
     clusterServiceAccounts := [];
     clusterDeployments := [web];
     clusterDaemonSets := [];
     clusterStatefulSets := [];
     clusterReplicaSets := [];
     clusterRolesIn := [];
     clusterClusterRoles := [admin] |}.

(** ** The contract of the session

    An answer without error carries an object.  The clientset of the API
    client allocates the object before it sends the request, so all its
    answers are of that kind. *)
Definition answersWithObject {T : Type} (a : answer T) : Prop :=
  snd a = None -> fst a <> None.

Definition sessionContract (cs : Clientset) : Prop :=
  (forall ns n, answersWithObject (pods cs ns n))
  /\ (forall (ns : string) n, answersWithObject (namespaces cs n))
  /\ (forall ns n, answersWithObject (configMaps cs ns n))
  /\ (forall ns n, answersWithObject (secrets cs ns n))
  /\ (forall ns n, answersWithObject (services cs ns n))
  /\ (forall ns n, answersWithObject (serviceAccounts cs ns n))
  /\ (forall ns n, answersWithObject (deployments cs ns n))
  /\ (forall ns n, answersWithObject (daemonSets cs ns n))
  /\ (forall ns n, answersWithObject (statefulSets cs ns n))
  /\ (forall ns n, answersWithObject (replicaSets cs ns n))
  /\ (forall ns n, answersWithObject (roles cs ns n))
  /\ (forall (ns : string) n, answersWithObject (clusterRoles cs n)).

(** A call returns, and returns exactly one of an object and an error. *)
Definition exactlyOneOutcome {T : Type} (call : Api (answer T))
  (tr : list Request) : Prop :=
  exists r,
    returned (call tr) = Some r
    /\ objectXorError r
    /\ ~ (fst r <> None /\ snd r <> None)
    /\ ~ (fst r = None /\ snd r = None).

(** ** The receiver with its clientset pointer

    The methods take the struct [Client] by value; its [Clientset] field is
    a pointer, [nil] until [Init] has created the clientset.  A typed fetch
    reaches through that pointer before anything else: on [nil] this is a
    nil dereference, and no read is issued. *)
Definition liveClient (client : ClientStruct) (cs : Clientset) : Client :=
  {| Client_Clientset := cs;
     Client_RestConfig := match ClientStruct_RestConfig client with
                          | Some address => address
                          | None => ""
                          end |}.

Definition throughClientset {A : Type} (client : ClientStruct)
  (call : Client -> Api A) : Api A :=
  cs <- deref (ClientStruct_Clientset client) ;;
  call (liveClient client cs).

Module Receiver.

Section Methods.

Variable Pod_String : corev1.Pod -> string.

Definition GetDeployment (client : ClientStruct) (name namespace : string)
  : Api (answer appsv1.Deployment) :=
  throughClientset client (fun c => GetDeployment c name namespace).

Definition GetDaemonSet (client : ClientStruct) (name namespace : string)
  : Api (answer appsv1.DaemonSet) :=
  throughClientset client (fun c => GetDaemonSet c name namespace).

Definition GetStatefulSet (client : ClientStruct) (name namespace : string)
  : Api (answer appsv1.StatefulSet) :=
  throughClientset client (fun c => GetStatefulSet c name namespace).

Definition GetReplicaSet (client : ClientStruct) (name namespace : string)
  : Api (answer appsv1.ReplicaSet) :=
  throughClientset client (fun c => GetReplicaSet c name namespace).

Definition GetDeploymentFromPod (client : ClientStruct) (pod : ptr corev1.Pod)
  : Api (answer appsv1.Deployment) :=
  p <- deref pod ;;
  o <- index0 (metav1.ObjectMeta_OwnerReferences (corev1.Pod_ObjectMeta p)) ;;
  let podName := metav1.OwnerReference_Name o in
  let namespace := metav1.ObjectMeta_Namespace (corev1.Pod_ObjectMeta p) in
  '(r, err) <- GetDeployment client podName namespace ;;
  match err with
  | Some e => ret (None, Some e)
  | None =>
      match r with
      | None =>
          ret (None, Some (Errorf "can't find the deployment for the pod'%v' in namespace '%v'"
                                  [Pod_String p; namespace]))
      | Some _ => ret (r, None)
      end
  end.

Definition GetDaemonsetFromPod (client : ClientStruct) (pod : ptr corev1.Pod)
  : Api (answer appsv1.DaemonSet) :=
  p <- deref pod ;;
  o <- index0 (metav1.ObjectMeta_OwnerReferences (corev1.Pod_ObjectMeta p)) ;;
  let podName := metav1.OwnerReference_Name o in
  let namespace := metav1.ObjectMeta_Namespace (corev1.Pod_ObjectMeta p) in
  '(r, err) <- GetDaemonSet client podName namespace ;;
  match err with
  | Some e => ret (None, Some e)
  | None =>
      match r with
      | None =>
          ret (None, Some (Errorf "can't find the daemonset for the pod'%v' in namespace '%v'"
                                  [Pod_String p; namespace]))
      | Some _ => ret (r, None)
      end
  end.

Definition GetStatefulsetFromPod (client : ClientStruct) (pod : ptr corev1.Pod)
  : Api (answer appsv1.StatefulSet) :=
  p <- deref pod ;;
  o <- index0 (metav1.ObjectMeta_OwnerReferences (corev1.Pod_ObjectMeta p)) ;;
  let podName := metav1.OwnerReference_Name o in
  let namespace := metav1.ObjectMeta_Namespace (corev1.Pod_ObjectMeta p) in
  '(r, err) <- GetStatefulSet client podName namespace ;;
  match err with
  | Some e => ret (None, Some e)
  | None =>
      match r with
      | None =>
          ret (None, Some (Errorf "can't find the statefulset for the pod'%v' in namespace '%v'"
                                  [Pod_String p; namespace]))
      | Some _ => ret (r, None)
      end
  end.

Definition GetReplicasetFromPod (client : ClientStruct) (pod : ptr corev1.Pod)
  : Api (answer appsv1.ReplicaSet) :=
  p <- deref pod ;;
  o <- index0 (metav1.ObjectMeta_OwnerReferences (corev1.Pod_ObjectMeta p)) ;;
  let podName := metav1.OwnerReference_Name o in
  let namespace := metav1.ObjectMeta_Namespace (corev1.Pod_ObjectMeta p) in
  '(r, err) <- GetReplicaSet client podName namespace ;;
  match err with
  | Some e => ret (None, Some e)
  | None =>
      match r with
      | None =>
          ret (None, Some (Errorf "can't find the replicaset for the pod'%v' in namespace '%v'"
                                  [Pod_String p; namespace]))
      | Some _ => ret (r, None)
      end
  end.

End Methods.

End Receiver.

(** An owner resolution panics when the pod is ownerless or the clientset
    of the receiver is [nil], and in no other case; it panics before any
    read. *)
Definition panicsExactly {T : Type}
  (resolution : ClientStruct -> ptr corev1.Pod -> Api (answer T)) : Prop :=
  forall client pod tr,
    ((exists e, fst (resolution client pod tr) = Panic e)
     <-> ownerless pod \/ ClientStruct_Clientset client = None)
    /\ ((exists e, fst (resolution client pod tr) = Panic e) ->
        trace (resolution client pod tr) = tr)
    /\ (pod = None -> resolution client pod tr = (Panic NilDereference, tr))
    /\ (forall p, pod = Some p -> ownerless pod ->
                  resolution client pod tr = (Panic (IndexOutOfRange 0 0), tr))
    /\ (forall p, pod = Some p -> ~ ownerless pod ->
                  ClientStruct_Clientset client = None ->
                  resolution client pod tr = (Panic NilDereference, tr)).

(** ** Each typed fetch, as a function of the session's answer *)

Ltac run_fetch :=
  intros;
  match goal with
  | |- ?f _ _ _ _ = _ => unfold f
  | |- ?f _ _ _ = _ => unfold f
  end;
  unfold bind, Get, ret, flattened;
  match goal with
  | |- context [match ?a with (_, _) => _ end] => destruct a as [? [?|]]
  end; reflexivity.

Lemma GetPod_run client n ns tr :
  GetPod client n ns tr =
  (Return (flattened (doesntExist "pod" n ns) (pods (Client_Clientset client) ns n)),
   tr ++ [mkRequest ResPods (Some ns) n]).
Proof. run_fetch. Qed.

Lemma GetDeployment_run client n ns tr :
  GetDeployment client n ns tr =
  (Return (flattened (doesntExist "deployment" n ns)
                     (deployments (Client_Clientset client) ns n)),
   tr ++ [mkRequest ResDeployments (Some ns) n]).
Proof. run_fetch. Qed.

Lemma GetDaemonSet_run client n ns tr :
  GetDaemonSet client n ns tr =
  (Return (flattened (doesntExist "daemonset" n ns)
                     (daemonSets (Client_Clientset client) ns n)),
   tr ++ [mkRequest ResDaemonSets (Some ns) n]).
Proof. run_fetch. Qed.

Lemma GetStatefulSet_run client n ns tr :
  GetStatefulSet client n ns tr =
  (Return (flattened (doesntExist "statefulset" n ns)
                     (statefulSets (Client_Clientset client) ns n)),
   tr ++ [mkRequest ResStatefulSets (Some ns) n]).
Proof. run_fetch. Qed.

Lemma GetReplicaSet_run client n ns tr :
  GetReplicaSet client n ns tr =
  (Return (flattened (doesntExist "replicaset" n ns)
                     (replicaSets (Client_Clientset client) ns n)),
   tr ++ [mkRequest ResReplicaSets (Some ns) n]).
Proof. run_fetch. Qed.

Lemma GetNamespace_run client n tr :
  GetNamespace client n tr =
  (Return (flattened (doesntExistClusterWide "namespace" n)
                     (namespaces (Client_Clientset client) n)),
   tr ++ [mkRequest ResNamespaces None n]).
Proof. run_fetch. Qed.

Lemma GetConfigMap_run client n ns tr :
  GetConfigMap client n ns tr =
  (Return (flattened (doesntExist "configmap" n ns)
                     (configMaps (Client_Clientset client) ns n)),
   tr ++ [mkRequest ResConfigMaps (Some ns) n]).
Proof. run_fetch. Qed.

Lemma GetSecret_run client n ns tr :
  GetSecret client n ns tr =
  (Return (flattened (doesntExist "secret" n ns)
                     (secrets (Client_Clientset client) ns n)),
   tr ++ [mkRequest ResSecrets (Some ns) n]).
Proof. run_fetch. Qed.

Lemma GetService_run client n ns tr :
  GetService client n ns tr =
  (Return (flattened (doesntExist "service" n ns)
                     (services (Client_Clientset client) ns n)),
   tr ++ [mkRequest ResServices (Some ns) n]).
Proof. run_fetch. Qed.

Lemma GetServiceAccount_run client n ns tr :
  GetServiceAccount client n ns tr =
  (Return (flattened (doesntExist "serviceaccount" n ns)
                     (serviceAccounts (Client_Clientset client) ns n)),
   tr ++ [mkRequest ResServiceAccounts (Some ns) n]).
Proof. run_fetch. Qed.

Lemma GetRole_run client n ns tr :
  GetRole client n ns tr =
  (Return (flattened (doesntExist "role" n ns)
                     (roles (Client_Clientset client) ns n)),
   tr ++ [mkRequest ResRoles (Some ns) n]).
Proof. run_fetch. Qed.

(** The cluster-scoped read of [GetClusterRole] takes no namespace, its
    failure names the namespace it was given all the same. *)
Lemma GetClusterRole_run client n ns tr :
  GetClusterRole client n ns tr =
  (Return (flattened (doesntExist "clusterrole" n ns)
                     (clusterRoles (Client_Clientset client) n)),
   tr ++ [mkRequest ResClusterRoles None n]).
Proof. run_fetch. Qed.

(** ** Container names *)

Lemma append_loop {A B : Type} (f : A -> B) (l : list A) (acc : list B) :
  fold_left (fun c i => c ++ [f i]) l acc = acc ++ map f l.
Proof.
  revert acc; induction l as [|x l IH]; intros acc; simpl.
  - now rewrite app_nil_r.
  - rewrite IH, <- app_assoc. reflexivity.
Qed.

(** C8.  [GetContainers] has no failure case on a pod: it returns the names
    of the containers of the pod's specification, one per container and in
    the order of declaration; a pod without container gives the empty
    sequence. *)
Theorem GetContainers_names :
  forall p : corev1.Pod,
    let containers := corev1.PodSpec_Containers (corev1.Pod_Spec p) in
    exists names,
      GetContainers (Some p) = Return names
      /\ names = map corev1.Container_Name containers
      /\ length names = length containers
      /\ (forall i, nth_error names i
                    = option_map corev1.Container_Name (nth_error containers i))
      /\ (forall meta,
            GetContainers
              (Some {| corev1.Pod_ObjectMeta := meta;
                       corev1.Pod_Spec := {| corev1.PodSpec_Containers := [] |} |})
            = Return []).
Proof.
  intros p containers.
  exists (map corev1.Container_Name containers).
  split; [|split; [|split; [|split]]].
  - unfold GetContainers. now rewrite append_loop.
  - reflexivity.
  - apply length_map.
  - intro i. apply nth_error_map.
  - reflexivity.
Qed.

Example GetContainers_webPod : GetContainers (Some webPod) = Return ["app"; "sidecar"].
Proof. reflexivity. Qed.

(** ** Dynamic dispatch *)

(** C2.  The tag [daemonsets] dispatches to the typed fetch of deployments:
    on every session, name and namespace it returns what the tag
    [deployments] returns, the object or the error, and the one read it
    issues is a read of deployments. *)
Theorem GetTarget_daemonsets_is_deployments :
  forall client n ns,
    GetTarget client "daemonsets" n ns = GetTarget client "deployments" n ns
    /\ GetTarget client "daemonsets" n ns
       = boxed TDeployment (GetDeployment client n ns)
    /\ forall tr,
         trace (GetTarget client "daemonsets" n ns tr)
         = tr ++ [mkRequest ResDeployments (Some ns) n].
Proof.
  intros client n ns. split; [reflexivity|]. split; [reflexivity|].
  intro tr. cbn. unfold boxed, bind, trace.
  rewrite GetDeployment_run.
  destruct (flattened _ _). reflexivity.
Qed.

Lemma untagged tag :
  ~ In tag ResourceTypeTags ->
  forall A (known : string) (x y : A),
    In known ResourceTypeTags -> (if tag =? known then x else y) = y.
Proof.
  intros Hout A known x y Hin.
  destruct (String.eqb_spec tag known) as [->|_]; [contradiction|reflexivity].
Qed.

Ltac known_tag := unfold ResourceTypeTags; simpl; tauto.

Lemma fetch_failure_inv {T : Type} (failure : error) (a : answer T)
  (out tr' : list Request) (p : ptr T) (e : error) :
  (Return (flattened failure a), out) = (Return (p, Some e), tr') ->
  e = failure.
Proof.
  destruct a as [o [c|]]; cbn; intro H; now inversion H.
Qed.

Ltac fetch_failed H :=
  first [ rewrite GetPod_run in H | rewrite GetDeployment_run in H
        | rewrite GetDaemonSet_run in H | rewrite GetStatefulSet_run in H
        | rewrite GetReplicaSet_run in H | rewrite GetNamespace_run in H
        | rewrite GetConfigMap_run in H | rewrite GetSecret_run in H
        | rewrite GetService_run in H | rewrite GetServiceAccount_run in H
        | rewrite GetRole_run in H | rewrite GetClusterRole_run in H ];
  apply fetch_failure_inv in H.

Lemma read_failure_is_not_unsupported e :
  NotFoundOrTransportError e -> e <> UnsupportedResourceType.
Proof.
  intros He Heq.
  destruct He as [? ? ? ? ? ? ? H | ? ? ? ? ? ? ? H | ? ? ? ? ? ? ? H
                 | ? ? ? ? ? ? ? H | ? ? ? ? ? ? ? H | ? ? ? ? ? ? H
                 | ? ? ? ? ? ? ? H | ? ? ? ? ? ? ? H | ? ? ? ? ? ? ? H
                 | ? ? ? ? ? ? ? H | ? ? ? ? ? ? ? H | ? ? ? ? ? ? ? H];
    fetch_failed H; rewrite H in Heq; cbn in Heq; discriminate Heq.
Qed.

(** C3.  A tag outside the enumeration makes [GetTarget] return the [nil]
    interface with the unsupported-type error and issue no read; that error
    is none of the errors a typed fetch can return. *)
Theorem GetTarget_unsupported :
  forall client tag n ns tr,
    ~ In tag ResourceTypeTags ->
    GetTarget client tag n ns tr
    = (Return (None, Some UnsupportedResourceType), tr)
    /\ forall e, NotFoundOrTransportError e -> e <> UnsupportedResourceType.
Proof.
  intros client tag n ns tr Hout. split.
  - unfold GetTarget.
    repeat (rewrite (untagged tag Hout) by known_tag).
    reflexivity.
  - exact read_failure_is_not_unsupported.
Qed.

Lemma GetTarget_unsupported_witness :
  ~ In "bogus-kind" ResourceTypeTags
  /\ GetTarget (clientOf demo) "bogus-kind" "web" "ns1" []
     = (Return (None, Some UnsupportedResourceType), []).
Proof.
  assert (Hout : ~ In "bogus-kind" ResourceTypeTags).
  { unfold ResourceTypeTags; simpl; intros H.
    repeat (destruct H as [H|H]; [discriminate H|]). exact H. }
  split; [exact Hout|].
  exact (proj1 (GetTarget_unsupported (clientOf demo) "bogus-kind" "web" "ns1" [] Hout)).
Defined.

(** ** Owner resolution *)

Section OwnerResolution.

Variable Pod_String : corev1.Pod -> string.

Ltac run_resolution H :=
  match goal with
  | |- ?f _ _ _ _ = _ => unfold f
  end;
  unfold deref, bind, ret; rewrite H; cbn [index0]; unfold ret;
  first [ rewrite GetDeployment_run | rewrite GetDaemonSet_run
        | rewrite GetStatefulSet_run | rewrite GetReplicaSet_run ];
  match goal with
  | |- context [flattened _ ?a] => destruct a as [[?|] [?|]]
  end; reflexivity.

Lemma GetDeploymentFromPod_run client p o rest tr :
  metav1.ObjectMeta_OwnerReferences (corev1.Pod_ObjectMeta p) = o :: rest ->
  let name := metav1.OwnerReference_Name o in
  let ns := metav1.ObjectMeta_Namespace (corev1.Pod_ObjectMeta p) in
  GetDeploymentFromPod Pod_String client (Some p) tr =
  (Return (resolved (OwnerResolutionFailure "deployment" (Pod_String p) ns)
             (flattened (doesntExist "deployment" name ns)
                        (deployments (Client_Clientset client) ns name))),
   tr ++ [mkRequest ResDeployments (Some ns) name]).
Proof. intros H name ns. subst name ns. run_resolution H. Qed.

Lemma GetDaemonsetFromPod_run client p o rest tr :
  metav1.ObjectMeta_OwnerReferences (corev1.Pod_ObjectMeta p) = o :: rest ->
  let name := metav1.OwnerReference_Name o in
  let ns := metav1.ObjectMeta_Namespace (corev1.Pod_ObjectMeta p) in
  GetDaemonsetFromPod Pod_String client (Some p) tr =
  (Return (resolved (OwnerResolutionFailure "daemonset" (Pod_String p) ns)
             (flattened (doesntExist "daemonset" name ns)
                        (daemonSets (Client_Clientset client) ns name))),
   tr ++ [mkRequest ResDaemonSets (Some ns) name]).
Proof. intros H name ns. subst name ns. run_resolution H. Qed.

Lemma GetStatefulsetFromPod_run client p o rest tr :
  metav1.ObjectMeta_OwnerReferences (corev1.Pod_ObjectMeta p) = o :: rest ->
  let name := metav1.OwnerReference_Name o in
  let ns := metav1.ObjectMeta_Namespace (corev1.Pod_ObjectMeta p) in
  GetStatefulsetFromPod Pod_String client (Some p) tr =
  (Return (resolved (OwnerResolutionFailure "statefulset" (Pod_String p) ns)
             (flattened (doesntExist "statefulset" name ns)
                        (statefulSets (Client_Clientset client) ns name))),
   tr ++ [mkRequest ResStatefulSets (Some ns) name]).
Proof. intros H name ns. subst name ns. run_resolution H. Qed.

Lemma GetReplicasetFromPod_run client p o rest tr :
  metav1.ObjectMeta_OwnerReferences (corev1.Pod_ObjectMeta p) = o :: rest ->
  let name := metav1.OwnerReference_Name o in
  let ns := metav1.ObjectMeta_Namespace (corev1.Pod_ObjectMeta p) in
  GetReplicasetFromPod Pod_String client (Some p) tr =
  (Return (resolved (OwnerResolutionFailure "replicaset" (Pod_String p) ns)
             (flattened (doesntExist "replicaset" name ns)
                        (replicaSets (Client_Clientset client) ns name))),
   tr ++ [mkRequest ResReplicaSets (Some ns) name]).
Proof. intros H name ns. subst name ns. run_resolution H. Qed.

(** Without owner reference the index is out of range: the resolution
    panics before any read. *)
Lemma resolution_without_owner_panics client p tr :
  metav1.ObjectMeta_OwnerReferences (corev1.Pod_ObjectMeta p) = [] ->
  GetDeploymentFromPod Pod_String client (Some p) tr = (Panic (IndexOutOfRange 0 0), tr)
  /\ GetDaemonsetFromPod Pod_String client (Some p) tr = (Panic (IndexOutOfRange 0 0), tr)
  /\ GetStatefulsetFromPod Pod_String client (Some p) tr = (Panic (IndexOutOfRange 0 0), tr)
  /\ GetReplicasetFromPod Pod_String client (Some p) tr = (Panic (IndexOutOfRange 0 0), tr).
Proof.
  intro H.
  unfold GetDeploymentFromPod, GetDaemonsetFromPod, GetStatefulsetFromPod,
    GetReplicasetFromPod, deref, bind, ret.
  rewrite H. repeat split.
Qed.

(** The generic steps, on the shape the run lemmas give. *)
Lemma propagates_intro {T : Type} (resolution fetch : Api (answer T))
  (read : Request) (ownerFailure notFound : error) (a : answer T)
  (tr : list Request) :
  resolution tr = (Return (resolved ownerFailure (flattened notFound a)), tr ++ [read]) ->
  fetch tr = (Return (flattened notFound a), tr ++ [read]) ->
  (forall r e tr', fetch tr = (Return (r, Some e), tr') -> NotFoundOrTransportError e) ->
  notFound <> ownerFailure ->
  propagates resolution fetch read ownerFailure tr.
Proof.
  intros Hres Hfetch Hnf Hneq. unfold propagates, trace.
  rewrite Hres, Hfetch. repeat split; try reflexivity.
  - destruct a as [d [c|]]; cbn in *.
    + inversion H; subst. reflexivity.
    + inversion H.
  - eapply Hnf. rewrite Hfetch. exact H.
  - apply fetch_failure_inv in H. now subst.
Qed.

Lemma neverOwnerFailure_intro {T : Type} (resolution fetch : Api (answer T))
  (read : Request) (ownerFailure notFound : error) (a : answer T)
  (tr : list Request) :
  resolution tr = (Return (resolved ownerFailure (flattened notFound a)), tr ++ [read]) ->
  fetch tr = (Return (flattened notFound a), tr ++ [read]) ->
  (forall r e tr', fetch tr = (Return (r, e), tr') -> (r = None <-> e <> None)) ->
  notFound <> ownerFailure ->
  neverOwnerFailure resolution fetch ownerFailure tr.
Proof.
  intros Hres Hfetch Hinv Hneq. unfold neverOwnerFailure.
  rewrite Hres, Hfetch.
  destruct a as [[d|] [c|]]; cbn in *.
  - eexists; eexists; split; [reflexivity|]. split.
    + left. eexists; eexists; split; reflexivity.
    + cbn. congruence.
  - eexists; eexists; split; [reflexivity|]. split.
    + right. eexists; reflexivity.
    + cbn. discriminate.
  - eexists; eexists; split; [reflexivity|]. split.
    + left. eexists; eexists; split; reflexivity.
    + cbn. congruence.
  - exfalso. destruct (Hinv None None (tr ++ [read])) as [Hn _].
    + rewrite Hfetch. reflexivity.
    + now apply Hn.
Qed.

Lemma readsFirstOwnerOnly_intro {T : Type}
  (resolution : ptr corev1.Pod -> Api (answer T)) (res : Resource)
  (lookup : string -> string -> answer T)
  (ownerFailure : corev1.Pod -> error) (notFound : string -> string -> error)
  (p : corev1.Pod) (o : metav1.OwnerReference) (rest : list metav1.OwnerReference)
  (tr : list Request) :
  (forall q o' rest',
      metav1.ObjectMeta_OwnerReferences (corev1.Pod_ObjectMeta q) = o' :: rest' ->
      let name := metav1.OwnerReference_Name o' in
      let ns := metav1.ObjectMeta_Namespace (corev1.Pod_ObjectMeta q) in
      resolution (Some q) tr
      = (Return (resolved (ownerFailure q) (flattened (notFound name ns) (lookup ns name))),
         tr ++ [mkRequest res (Some ns) name])) ->
  metav1.ObjectMeta_OwnerReferences (corev1.Pod_ObjectMeta p) = o :: rest ->
  readsFirstOwnerOnly resolution res p o tr.
Proof.
  intros Hrun Hp. unfold readsFirstOwnerOnly. split.
  - eexists. apply (Hrun p o rest Hp).
  - intros p' Hns Hhd.
    destruct (metav1.ObjectMeta_OwnerReferences (corev1.Pod_ObjectMeta p'))
      as [|o' rest'] eqn:Hp'; [discriminate Hhd|].
    cbn in Hhd. injection Hhd as Hname.
    rewrite (Hrun p' o' rest' Hp'), (Hrun p o rest Hp).
    unfold trace, returned; cbn. rewrite Hns, Hname. split; [reflexivity|].
    destruct (lookup _ _) as [[d|] [c|]]; reflexivity.
Qed.

End OwnerResolution.

Ltac owner_failure_differs :=
  let Hsame := fresh "Hsame" in cbn; intro Hsame; discriminate Hsame.

(** C4.  For a pod with at least one owner reference, each of the four
    owner resolutions issues the read of its typed fetch under the name of
    the first owner reference and the namespace of the pod; when that fetch
    fails, the resolution returns the error of the fetch unchanged, a
    flattened read failure and not the failure of the resolution. *)
Theorem owner_resolution_propagates_fetch_failure :
  forall (Pod_String : corev1.Pod -> string) client p o rest tr,
    metav1.ObjectMeta_OwnerReferences (corev1.Pod_ObjectMeta p) = o :: rest ->
    let name := metav1.OwnerReference_Name o in
    let ns := metav1.ObjectMeta_Namespace (corev1.Pod_ObjectMeta p) in
    propagates (GetDeploymentFromPod Pod_String client (Some p))
               (GetDeployment client name ns)
               (mkRequest ResDeployments (Some ns) name)
               (OwnerResolutionFailure "deployment" (Pod_String p) ns) tr
    /\ propagates (GetDaemonsetFromPod Pod_String client (Some p))
                  (GetDaemonSet client name ns)
                  (mkRequest ResDaemonSets (Some ns) name)
                  (OwnerResolutionFailure "daemonset" (Pod_String p) ns) tr
    /\ propagates (GetStatefulsetFromPod Pod_String client (Some p))
                  (GetStatefulSet client name ns)
                  (mkRequest ResStatefulSets (Some ns) name)
                  (OwnerResolutionFailure "statefulset" (Pod_String p) ns) tr
    /\ propagates (GetReplicasetFromPod Pod_String client (Some p))
                  (GetReplicaSet client name ns)
                  (mkRequest ResReplicaSets (Some ns) name)
                  (OwnerResolutionFailure "replicaset" (Pod_String p) ns) tr.
Proof.
  intros Pod_String client p o rest tr Hp name ns.
  split; [|split; [|split]].
  - eapply propagates_intro.
    + apply (GetDeploymentFromPod_run Pod_String client p o rest tr Hp).
    + apply GetDeployment_run.
    + intros r e tr' H. exact (FromGetDeployment _ _ _ _ _ _ _ H).
    + owner_failure_differs.
  - eapply propagates_intro.
    + apply (GetDaemonsetFromPod_run Pod_String client p o rest tr Hp).
    + apply GetDaemonSet_run.
    + intros r e tr' H. exact (FromGetDaemonSet _ _ _ _ _ _ _ H).
    + owner_failure_differs.
  - eapply propagates_intro.
    + apply (GetStatefulsetFromPod_run Pod_String client p o rest tr Hp).
    + apply GetStatefulSet_run.
    + intros r e tr' H. exact (FromGetStatefulSet _ _ _ _ _ _ _ H).
    + owner_failure_differs.
  - eapply propagates_intro.
    + apply (GetReplicasetFromPod_run Pod_String client p o rest tr Hp).
    + apply GetReplicaSet_run.
    + intros r e tr' H. exact (FromGetReplicaSet _ _ _ _ _ _ _ H).
    + owner_failure_differs.
Qed.

Lemma owner_resolution_propagates_fetch_failure_witness :
  metav1.ObjectMeta_OwnerReferences (corev1.Pod_ObjectMeta webPod)
  = [ownedBy "Deployment" "web"]
  /\ GetDeploymentFromPod podLabel (clientOf vacant) (Some webPod) []
     = (Return (None, Some (doesntExist "deployment" "web" "ns1")),
        [mkRequest ResDeployments (Some "ns1") "web"]).
Proof.
  split; [reflexivity|].
  destruct (owner_resolution_propagates_fetch_failure podLabel (clientOf vacant)
              webPod (ownedBy "Deployment" "web") [] [] eq_refl)
    as [[_ [_ Hfail]] _].
  apply (Hfail None); reflexivity.
Defined.

(** C5.  For a pod whose owner references are not empty, each of the four
    owner resolutions accesses index 0 in bounds: it returns without panic
    after the one read the first owner reference names, and reads no other
    entry, pods of the same namespace with the same first owner name giving
    the same read and the same object. *)
Theorem owner_resolution_in_bounds :
  forall (Pod_String : corev1.Pod -> string) client p tr,
    metav1.ObjectMeta_OwnerReferences (corev1.Pod_ObjectMeta p) <> [] ->
    exists o rest,
      metav1.ObjectMeta_OwnerReferences (corev1.Pod_ObjectMeta p) = o :: rest
      /\ readsFirstOwnerOnly (GetDeploymentFromPod Pod_String client) ResDeployments p o tr
      /\ readsFirstOwnerOnly (GetDaemonsetFromPod Pod_String client) ResDaemonSets p o tr
      /\ readsFirstOwnerOnly (GetStatefulsetFromPod Pod_String client) ResStatefulSets p o tr
      /\ readsFirstOwnerOnly (GetReplicasetFromPod Pod_String client) ResReplicaSets p o tr.
Proof.
  intros Pod_String client p tr Hne.
  destruct (metav1.ObjectMeta_OwnerReferences (corev1.Pod_ObjectMeta p))
    as [|o rest] eqn:Hp; [contradiction|].
  exists o, rest. split; [reflexivity|].
  split; [|split; [|split]].
  - eapply (readsFirstOwnerOnly_intro _ _ (deployments (Client_Clientset client))
              (fun q => OwnerResolutionFailure "deployment" (Pod_String q)
                          (metav1.ObjectMeta_Namespace (corev1.Pod_ObjectMeta q)))
              (doesntExist "deployment")); [|exact Hp].
    intros q o' rest' Hq. apply (GetDeploymentFromPod_run _ _ _ _ _ _ Hq).
  - eapply (readsFirstOwnerOnly_intro _ _ (daemonSets (Client_Clientset client))
              (fun q => OwnerResolutionFailure "daemonset" (Pod_String q)
                          (metav1.ObjectMeta_Namespace (corev1.Pod_ObjectMeta q)))
              (doesntExist "daemonset")); [|exact Hp].
    intros q o' rest' Hq. apply (GetDaemonsetFromPod_run _ _ _ _ _ _ Hq).
  - eapply (readsFirstOwnerOnly_intro _ _ (statefulSets (Client_Clientset client))
              (fun q => OwnerResolutionFailure "statefulset" (Pod_String q)
                          (metav1.ObjectMeta_Namespace (corev1.Pod_ObjectMeta q)))
              (doesntExist "statefulset")); [|exact Hp].
    intros q o' rest' Hq. apply (GetStatefulsetFromPod_run _ _ _ _ _ _ Hq).
  - eapply (readsFirstOwnerOnly_intro _ _ (replicaSets (Client_Clientset client))
              (fun q => OwnerResolutionFailure "replicaset" (Pod_String q)
                          (metav1.ObjectMeta_Namespace (corev1.Pod_ObjectMeta q)))
              (doesntExist "replicaset")); [|exact Hp].
    intros q o' rest' Hq. apply (GetReplicasetFromPod_run _ _ _ _ _ _ Hq).
Qed.

Lemma owner_resolution_in_bounds_witness :
  metav1.ObjectMeta_OwnerReferences (corev1.Pod_ObjectMeta webPod) <> []
  /\ exists r,
       GetDeploymentFromPod podLabel (clientOf demo) (Some webPod) []
       = (Return r, [mkRequest ResDeployments (Some "ns1") "web"]).
Proof.
  assert (Hne : metav1.ObjectMeta_OwnerReferences (corev1.Pod_ObjectMeta webPod) <> [])
    by (simpl; discriminate).
  split; [exact Hne|].
  destruct (owner_resolution_in_bounds podLabel (clientOf demo) webPod [] Hne)
    as [o [rest [Ho [[[r Hr] _] _]]]].
  injection Ho as <- _.
  exists r. exact Hr.
Defined.

(** The owner resolutions of a pod nothing owns. *)
Example barePod_panics :
  GetDeploymentFromPod podLabel (clientOf demo) (Some barePod) []
  = (Panic (IndexOutOfRange 0 0), []).
Proof. reflexivity. Qed.

Example webPod_resolves :
  GetDeploymentFromPod podLabel (clientOf demo) (Some webPod) []
  = (Return (Some web, None), [mkRequest ResDeployments (Some "ns1") "web"]).
Proof. reflexivity. Qed.

(** C10.  When the typed fetches of a client return a [nil] object exactly
    when they return an error, an owner resolution on a pod with an owner
    reference returns the error of its typed fetch or a controller that is
    not [nil], and its own failure never. *)
Theorem owner_failure_unreachable :
  forall (Pod_String : corev1.Pod -> string) client p o rest tr,
    metav1.ObjectMeta_OwnerReferences (corev1.Pod_ObjectMeta p) = o :: rest ->
    noPartialResult (GetDeployment client) ->
    noPartialResult (GetDaemonSet client) ->
    noPartialResult (GetStatefulSet client) ->
    noPartialResult (GetReplicaSet client) ->
    let name := metav1.OwnerReference_Name o in
    let ns := metav1.ObjectMeta_Namespace (corev1.Pod_ObjectMeta p) in
    neverOwnerFailure (GetDeploymentFromPod Pod_String client (Some p))
                      (GetDeployment client name ns)
                      (OwnerResolutionFailure "deployment" (Pod_String p) ns) tr
    /\ neverOwnerFailure (GetDaemonsetFromPod Pod_String client (Some p))
                         (GetDaemonSet client name ns)
                         (OwnerResolutionFailure "daemonset" (Pod_String p) ns) tr
    /\ neverOwnerFailure (GetStatefulsetFromPod Pod_String client (Some p))
                         (GetStatefulSet client name ns)
                         (OwnerResolutionFailure "statefulset" (Pod_String p) ns) tr
    /\ neverOwnerFailure (GetReplicasetFromPod Pod_String client (Some p))
                         (GetReplicaSet client name ns)
                         (OwnerResolutionFailure "replicaset" (Pod_String p) ns) tr.
Proof.
  intros Pod_String client p o rest tr Hp Hd Hds Hss Hrs name ns.
  split; [|split; [|split]].
  - eapply neverOwnerFailure_intro.
    + apply (GetDeploymentFromPod_run Pod_String client p o rest tr Hp).
    + apply GetDeployment_run.
    + intros r e tr'. apply Hd.
    + owner_failure_differs.
  - eapply neverOwnerFailure_intro.
    + apply (GetDaemonsetFromPod_run Pod_String client p o rest tr Hp).
    + apply GetDaemonSet_run.
    + intros r e tr'. apply Hds.
    + owner_failure_differs.
  - eapply neverOwnerFailure_intro.
    + apply (GetStatefulsetFromPod_run Pod_String client p o rest tr Hp).
    + apply GetStatefulSet_run.
    + intros r e tr'. apply Hss.
    + owner_failure_differs.
  - eapply neverOwnerFailure_intro.
    + apply (GetReplicasetFromPod_run Pod_String client p o rest tr Hp).
    + apply GetReplicaSet_run.
    + intros r e tr'. apply Hrs.
    + owner_failure_differs.
Qed.

(** A session backed by a cluster answers with an object whenever it
    answers without error, so the typed fetches on it keep the contract. *)
Lemma serve_contract {T : Type} (meta : T -> metav1.ObjectMeta) (zero : T)
  (objects : list T) (ns n : string) :
  snd (serve meta zero objects ns n) = None ->
  fst (serve meta zero objects ns n) <> None.
Proof. unfold serve. destruct (find _ objects); cbn; congruence. Qed.

Lemma flattened_contract {T : Type} (failure : error) (a : answer T)
  (out tr' : list Request) (r : ptr T) (e : option error) :
  (snd a = None -> fst a <> None) ->
  (Return (flattened failure a), out) = (Return (r, e), tr') ->
  (r = None <-> e <> None).
Proof.
  intros Ha H. destruct a as [[d|] [c|]]; cbn in *; inversion H; subst;
    try (split; congruence).
  exfalso. exact (Ha eq_refl eq_refl).
Qed.

Lemma cluster_keeps_contract (c : Cluster) :
  noPartialResult (GetDeployment (clientOf c))
  /\ noPartialResult (GetDaemonSet (clientOf c))
  /\ noPartialResult (GetStatefulSet (clientOf c))
  /\ noPartialResult (GetReplicaSet (clientOf c)).
Proof.
  unfold noPartialResult.
  split; [|split; [|split]]; intros n ns tr r e tr' H.
  - rewrite GetDeployment_run in H.
    eapply flattened_contract; [|exact H]. apply serve_contract.
  - rewrite GetDaemonSet_run in H.
    eapply flattened_contract; [|exact H]. apply serve_contract.
  - rewrite GetStatefulSet_run in H.
    eapply flattened_contract; [|exact H]. apply serve_contract.
  - rewrite GetReplicaSet_run in H.
    eapply flattened_contract; [|exact H]. apply serve_contract.
Qed.

Lemma owner_failure_unreachable_witness :
  metav1.ObjectMeta_OwnerReferences (corev1.Pod_ObjectMeta webPod)
  = [ownedBy "Deployment" "web"]
  /\ noPartialResult (GetDeployment (clientOf demo))
  /\ noPartialResult (GetDaemonSet (clientOf demo))
  /\ noPartialResult (GetStatefulSet (clientOf demo))
  /\ noPartialResult (GetReplicaSet (clientOf demo))
  /\ neverOwnerFailure (GetDeploymentFromPod podLabel (clientOf demo) (Some webPod))
                       (GetDeployment (clientOf demo) "web" "ns1")
                       (OwnerResolutionFailure "deployment" (podLabel webPod) "ns1") [].
Proof.
  destruct (cluster_keeps_contract demo) as [Hd [Hds [Hss Hrs]]].
  repeat (split; [first [reflexivity | assumption]|]).
  exact (proj1 (owner_failure_unreachable podLabel (clientOf demo) webPod
                  (ownedBy "Deployment" "web") [] [] eq_refl Hd Hds Hss Hrs)).
Defined.

(** ** The dispatch against the kind each tag names *)

Lemma boxed_held {T : Type} (box : ptr T -> Target) (m : Api (answer T))
  (failure : error) (a : answer T) (tr out : list Request) (o : Target) :
  m tr = (Return (flattened failure a), out) ->
  held box a = Some o ->
  boxed box m tr = (Return (Some o, None), out).
Proof.
  intros Hm Hheld. unfold boxed, bind. rewrite Hm.
  destruct a as [[d|] [c|]]; cbn in *; try discriminate Hheld.
  now inversion Hheld.
Qed.

(** X3.  For every tag but [daemonsets], [GetTarget] on a session that holds an
    object of the tag's kind returns that object, boxed, without error. *)
Lemma GetTarget_returns_held client tag n ns o tr :
  tag <> "daemonsets" ->
  sessionHolds (Client_Clientset client) tag n ns = Some o ->
  returned (GetTarget client tag n ns tr) = Some (Some o, None).
Proof.
  intros Hds. unfold sessionHolds, GetTarget.
  repeat match goal with
         | |- context [if ?b then _ else _] =>
             let E := fresh "E" in destruct b eqn:E
         end;
    try discriminate;
    try match goal with
        | Etag : (tag =? "daemonsets") = true |- _ =>
            apply String.eqb_eq in Etag; contradiction
        end;
    intro Hheld; unfold returned;
    match goal with
    | |- context [boxed ?box ?m ?tr] =>
        erewrite (boxed_held box m _ _ tr _ o); [reflexivity| |exact Hheld]
    end.
  - apply GetNamespace_run.
  - apply GetConfigMap_run.
  - apply GetSecret_run.
  - apply GetDeployment_run.
  - apply GetStatefulSet_run.
  - apply GetReplicaSet_run.
  - apply GetService_run.
  - apply GetServiceAccount_run.
  - apply GetRole_run.
  - apply GetClusterRole_run.
Qed.

(** C1, at the tag [daemonsets].  The session holds the daemonset
    [fluentd] of [kube-system]; [GetTarget] reads the deployments instead
    and returns the failure of that read with a [nil] deployment. *)
Theorem GetTarget_daemonsets_misses_the_daemonset :
  sessionHolds (connect demo) "daemonsets" "fluentd" "kube-system"
  = Some (TDaemonSet (Some fluentd))
  /\ GetTarget (clientOf demo) "daemonsets" "fluentd" "kube-system" []
     = (Return (Some (TDeployment None),
                Some (doesntExist "deployment" "fluentd" "kube-system")),
        [mkRequest ResDeployments (Some "kube-system") "fluentd"])
  /\ GetDaemonSet (clientOf demo) "fluentd" "kube-system" []
     = (Return (Some fluentd, None),
        [mkRequest ResDaemonSets (Some "kube-system") "fluentd"]).
Proof. repeat split. Qed.

(** ** Failures of the typed fetches *)

Lemma flattensTo_intro {T : Type}
  (fetch : Client -> string -> string -> Api (answer T))
  (lookup : Clientset -> string -> string -> answer T)
  (failure : string -> string -> error) :
  (forall client n ns tr, exists out,
      fetch client n ns tr
      = (Return (flattened (failure n ns) (lookup (Client_Clientset client) ns n)), out)) ->
  flattensTo fetch lookup failure.
Proof.
  intros Hrun client n ns tr o cause Hfail.
  destruct (Hrun client n ns tr) as [out ->].
  rewrite Hfail. reflexivity.
Qed.

(** Whatever makes the read fail, a typed fetch returns no object and one
    error that names the kind, the name and the namespace; [GetNamespace]
    has no namespace to name. *)
Lemma read_failures_are_flattened :
  flattensTo GetPod pods (doesntExist "pod")
  /\ flattensTo GetDeployment deployments (doesntExist "deployment")
  /\ flattensTo GetDaemonSet daemonSets (doesntExist "daemonset")
  /\ flattensTo GetStatefulSet statefulSets (doesntExist "statefulset")
  /\ flattensTo GetReplicaSet replicaSets (doesntExist "replicaset")
  /\ flattensTo GetConfigMap configMaps (doesntExist "configmap")
  /\ flattensTo GetSecret secrets (doesntExist "secret")
  /\ flattensTo GetService services (doesntExist "service")
  /\ flattensTo GetServiceAccount serviceAccounts (doesntExist "serviceaccount")
  /\ flattensTo GetRole roles (doesntExist "role")
  /\ flattensTo (fun client n _ => GetNamespace client n)
                (fun cs _ n => namespaces cs n)
                (fun n _ => doesntExistClusterWide "namespace" n)
  /\ flattensTo GetClusterRole (fun cs _ n => clusterRoles cs n)
                (doesntExist "clusterrole").
Proof.
  repeat split; apply flattensTo_intro; intros client n ns tr; eexists.
  - apply GetPod_run.
  - apply GetDeployment_run.
  - apply GetDaemonSet_run.
  - apply GetStatefulSet_run.
  - apply GetReplicaSet_run.
  - apply GetConfigMap_run.
  - apply GetSecret_run.
  - apply GetService_run.
  - apply GetServiceAccount_run.
  - apply GetRole_run.
  - apply GetNamespace_run.
  - apply GetClusterRole_run.
Qed.

(** C6, at [GetClusterRole].  The read of the cluster role [admin] fails;
    the error returned names the namespace passed in, it is not the
    message without namespace clause that [GetNamespace] gives. *)
Theorem GetClusterRole_failure_names_the_namespace :
  GetClusterRole (clientOf vacant) "admin" "ns1" []
  = (Return (None,
             Some (errorString
                     "the clusterrole 'admin' in the namespace 'ns1' doesn't exist")),
     [mkRequest ResClusterRoles None "admin"])
  /\ returned (GetClusterRole (clientOf vacant) "admin" "ns1" [])
     <> Some (None, Some (doesntExistClusterWide "clusterrole" "admin"))
  /\ GetNamespace (clientOf vacant) "ns1" []
     = (Return (None, Some (errorString "the namespace 'ns1' doesn't exist")),
        [mkRequest ResNamespaces None "ns1"]).
Proof.
  split; [reflexivity|]. split; [|reflexivity].
  cbn. intro H. discriminate H.
Qed.

(** ** Cluster-scoped fetches and the namespace *)

(** X11.  The read [GetClusterRole] issues, the object it returns and whether it
    fails do not depend on the namespace; when the read succeeds the whole
    result does not. *)
Lemma GetClusterRole_read_ignores_namespace client n ns1 ns2 tr :
  trace (GetClusterRole client n ns1 tr) = trace (GetClusterRole client n ns2 tr)
  /\ option_map fst (returned (GetClusterRole client n ns1 tr))
     = option_map fst (returned (GetClusterRole client n ns2 tr))
  /\ (snd (clusterRoles (Client_Clientset client) n) = None ->
      GetClusterRole client n ns1 tr = GetClusterRole client n ns2 tr).
Proof.
  rewrite !GetClusterRole_run. unfold trace, returned.
  destruct (clusterRoles _ n) as [o [c|]]; cbn; repeat split; discriminate.
Qed.

(** C7, at a failing [GetClusterRole].  Two calls that differ in the
    namespace alone, on the same session, return two different errors. *)
Theorem GetClusterRole_failure_depends_on_namespace :
  returned (GetClusterRole (clientOf vacant) "admin" "ns1" [])
  = Some (None, Some (doesntExist "clusterrole" "admin" "ns1"))
  /\ returned (GetClusterRole (clientOf vacant) "admin" "ns2" [])
     = Some (None, Some (doesntExist "clusterrole" "admin" "ns2"))
  /\ returned (GetClusterRole (clientOf vacant) "admin" "ns1" [])
     <> returned (GetClusterRole (clientOf vacant) "admin" "ns2" []).
Proof.
  split; [reflexivity|]. split; [reflexivity|].
  cbn. intro H. discriminate H.
Qed.

(** ** No object together with an error *)

Lemma passesThrough_intro {T : Type}
  (fetch : Client -> string -> string -> Api (answer T))
  (lookup : Clientset -> string -> string -> answer T)
  (failure : string -> string -> error) :
  (forall client n ns tr, exists out,
      fetch client n ns tr
      = (Return (flattened (failure n ns) (lookup (Client_Clientset client) ns n)), out)) ->
  passesThrough fetch lookup.
Proof.
  intros Hrun client n ns tr a. subst a.
  destruct (Hrun client n ns tr) as [out ->].
  unfold returned, objectXorError.
  destruct (lookup _ ns n) as [[d|] [c|]]; cbn;
    eexists; (split; [reflexivity|]); cbn;
    repeat split; try congruence; try tauto.
  all: first [ intros [Ho He]; congruence
             | intros _; right; split; congruence ].
Qed.

(** What every typed fetch makes of the answer of the session, with no
    assumption on the session: it never returns an object together with
    an error; when the read fails it returns no object and an error, when
    the read succeeds it returns the object of the session unchanged and
    no error. *)
Lemma typed_fetch_no_object_with_error :
  passesThrough GetPod pods
  /\ passesThrough GetDeployment deployments
  /\ passesThrough GetDaemonSet daemonSets
  /\ passesThrough GetStatefulSet statefulSets
  /\ passesThrough GetReplicaSet replicaSets
  /\ passesThrough GetConfigMap configMaps
  /\ passesThrough GetSecret secrets
  /\ passesThrough GetService services
  /\ passesThrough GetServiceAccount serviceAccounts
  /\ passesThrough GetRole roles
  /\ passesThrough (fun client n _ => GetNamespace client n)
                   (fun cs _ n => namespaces cs n)
  /\ passesThrough GetClusterRole (fun cs _ n => clusterRoles cs n).
Proof.
  repeat split.
  - apply (passesThrough_intro _ _ (doesntExist "pod")).
    intros; eexists; apply GetPod_run.
  - apply (passesThrough_intro _ _ (doesntExist "deployment")).
    intros; eexists; apply GetDeployment_run.
  - apply (passesThrough_intro _ _ (doesntExist "daemonset")).
    intros; eexists; apply GetDaemonSet_run.
  - apply (passesThrough_intro _ _ (doesntExist "statefulset")).
    intros; eexists; apply GetStatefulSet_run.
  - apply (passesThrough_intro _ _ (doesntExist "replicaset")).
    intros; eexists; apply GetReplicaSet_run.
  - apply (passesThrough_intro _ _ (doesntExist "configmap")).
    intros; eexists; apply GetConfigMap_run.
  - apply (passesThrough_intro _ _ (doesntExist "secret")).
    intros; eexists; apply GetSecret_run.
  - apply (passesThrough_intro _ _ (doesntExist "service")).
    intros; eexists; apply GetService_run.
  - apply (passesThrough_intro _ _ (doesntExist "serviceaccount")).
    intros; eexists; apply GetServiceAccount_run.
  - apply (passesThrough_intro _ _ (doesntExist "role")).
    intros; eexists; apply GetRole_run.
  - apply (passesThrough_intro _ _ (fun n _ => doesntExistClusterWide "namespace" n)).
    intros; eexists; apply GetNamespace_run.
  - apply (passesThrough_intro _ _ (doesntExist "clusterrole")).
    intros; eexists; apply GetClusterRole_run.
Qed.

Lemma exactlyOneOutcome_intro {T : Type}
  (fetch : Client -> string -> string -> Api (answer T))
  (lookup : Clientset -> string -> string -> answer T)
  (client : Client) (n ns : string) (tr : list Request) :
  passesThrough fetch lookup ->
  answersWithObject (lookup (Client_Clientset client) ns n) ->
  exactlyOneOutcome (fetch client n ns) tr.
Proof.
  intros Hfetch Hcontract.
  destruct (Hfetch client n ns tr) as [r [Hr [Hboth [_ [_ [_ Hxor]]]]]].
  exists r. split; [exact Hr|].
  pose proof (Hxor Hcontract) as Hone.
  split; [exact Hone|]. split; [exact Hboth|].
  intros [Ho He]. destruct Hone as [[Ho' _]|[_ He']]; contradiction.
Qed.

(** C9.  On a session that answers a read with an object whenever it
    answers without error, as the clientset of the API client does, every
    typed fetch returns exactly one of two outcomes for every name and
    namespace: an object that is not [nil] with a [nil] error, or a [nil]
    object with an error that is not [nil]; never both, never neither. *)
Theorem typed_fetch_no_partial_result :
  forall client n ns tr,
    sessionContract (Client_Clientset client) ->
    exactlyOneOutcome (GetPod client n ns) tr
    /\ exactlyOneOutcome (GetDeployment client n ns) tr
    /\ exactlyOneOutcome (GetDaemonSet client n ns) tr
    /\ exactlyOneOutcome (GetStatefulSet client n ns) tr
    /\ exactlyOneOutcome (GetReplicaSet client n ns) tr
    /\ exactlyOneOutcome (GetNamespace client n) tr
    /\ exactlyOneOutcome (GetConfigMap client n ns) tr
    /\ exactlyOneOutcome (GetSecret client n ns) tr
    /\ exactlyOneOutcome (GetService client n ns) tr
    /\ exactlyOneOutcome (GetServiceAccount client n ns) tr
    /\ exactlyOneOutcome (GetRole client n ns) tr
    /\ exactlyOneOutcome (GetClusterRole client n ns) tr.
Proof.
  intros client n ns tr
    [Hpods [Hns [Hcm [Hsec [Hsvc [Hsa [Hd [Hds [Hss [Hrs [Hr Hcr]]]]]]]]]]].
  destruct typed_fetch_no_object_with_error
    as [Ppod [Pd [Pds [Pss [Prs [Pcm [Psec [Psvc [Psa [Pr [Pns Pcr]]]]]]]]]]].
  repeat match goal with |- _ /\ _ => split end.
  - apply (exactlyOneOutcome_intro _ _ client n ns tr Ppod), Hpods.
  - apply (exactlyOneOutcome_intro _ _ client n ns tr Pd), Hd.
  - apply (exactlyOneOutcome_intro _ _ client n ns tr Pds), Hds.
  - apply (exactlyOneOutcome_intro _ _ client n ns tr Pss), Hss.
  - apply (exactlyOneOutcome_intro _ _ client n ns tr Prs), Hrs.
  - apply (exactlyOneOutcome_intro _ _ client n ns tr Pns). cbn. apply (Hns ns).
  - apply (exactlyOneOutcome_intro _ _ client n ns tr Pcm), Hcm.
  - apply (exactlyOneOutcome_intro _ _ client n ns tr Psec), Hsec.
  - apply (exactlyOneOutcome_intro _ _ client n ns tr Psvc), Hsvc.
  - apply (exactlyOneOutcome_intro _ _ client n ns tr Psa), Hsa.
  - apply (exactlyOneOutcome_intro _ _ client n ns tr Pr), Hr.
  - apply (exactlyOneOutcome_intro _ _ client n ns tr Pcr). cbn. apply (Hcr ns).
Qed.

Lemma serveClusterWide_contract {T : Type} (meta : T -> metav1.ObjectMeta)
  (zero : T) (objects : list T) (n : string) :
  answersWithObject (serveClusterWide meta zero objects n).
Proof.
  unfold answersWithObject, serveClusterWide.
  destruct (find _ objects); cbn; congruence.
Qed.

(** A session backed by a cluster keeps the contract. *)
Lemma connect_keeps_contract (c : Cluster) : sessionContract (connect c).
Proof.
  unfold sessionContract, connect; cbn.
  repeat split; intros;
    first [ apply serveClusterWide_contract
          | unfold answersWithObject; apply serve_contract ].
Qed.

Lemma typed_fetch_no_partial_result_witness :
  sessionContract (Client_Clientset (clientOf demo))
  /\ exactlyOneOutcome (GetPod (clientOf demo) "web-7c9d" "ns1") []
  /\ exactlyOneOutcome (GetClusterRole (clientOf demo) "admin" "ns1") [].
Proof.
  assert (Hc : sessionContract (Client_Clientset (clientOf demo)))
    by apply connect_keeps_contract.
  split; [exact Hc|].
  destruct (typed_fetch_no_partial_result (clientOf demo) "web-7c9d" "ns1" [] Hc)
    as [Hpod _].
  destruct (typed_fetch_no_partial_result (clientOf demo) "admin" "ns1" [] Hc)
    as [_ [_ [_ [_ [_ [_ [_ [_ [_ [_ [_ Hcr]]]]]]]]]]].
  split; [exact Hpod|exact Hcr].
Defined.

(** * Further properties of the facade *)

(** ** What the error of a typed fetch tells *)

Lemma runCall_run client k tr :
  exists failed : bool,
    runCall client k tr
    = (Return (if failed then Some (failureText k) else None), tr ++ [readOf k]).
Proof.
  destruct k; cbn [runCall failureText readOf]; unfold failureOf, bind;
    first [ rewrite GetPod_run | rewrite GetDeployment_run
          | rewrite GetDaemonSet_run | rewrite GetStatefulSet_run
          | rewrite GetReplicaSet_run | rewrite GetNamespace_run
          | rewrite GetConfigMap_run | rewrite GetSecret_run
          | rewrite GetService_run | rewrite GetServiceAccount_run
          | rewrite GetRole_run | rewrite GetClusterRole_run ];
    match goal with
    | |- context [flattened _ ?a] => destruct a as [o [c|]]
    end;
    [exists true | exists false | exists true | exists false
    | exists true | exists false | exists true | exists false
    | exists true | exists false | exists true | exists false
    | exists true | exists false | exists true | exists false
    | exists true | exists false | exists true | exists false
    | exists true | exists false | exists true | exists false];
    reflexivity.
Qed.

Lemma runCall_failure client k tr e :
  returned (runCall client k tr) = Some (Some e) ->
  runCall client k tr = (Return (Some (failureText k)), tr ++ [readOf k]).
Proof.
  destruct (runCall_run client k tr) as [[|] ->]; unfold returned; cbn.
  - reflexivity.
  - discriminate.
Qed.

(** X9.  The failure of a typed fetch hides its cause: on any two sessions that
    both fail the same call, whatever the errors and objects they answer
    with, the call returns the same error after the same read. *)
Theorem failed_calls_are_alike :
  forall client client' k tr e e',
    returned (runCall client k tr) = Some (Some e) ->
    returned (runCall client' k tr) = Some (Some e') ->
    runCall client k tr = runCall client' k tr /\ e = e'.
Proof.
  intros client client' k tr e e' H H'.
  pose proof (runCall_failure _ _ _ _ H) as R.
  pose proof (runCall_failure _ _ _ _ H') as R'.
  split; [now rewrite R, R'|].
  rewrite R in H. rewrite R' in H'. unfold returned in *; cbn in *. congruence.
Qed.

Lemma failed_calls_are_alike_witness :
  returned (runCall (clientOf vacant) (CallGetSecret "token" "ns1") [])
  = Some (Some (doesntExist "secret" "token" "ns1"))
  /\ returned (runCall forbidding (CallGetSecret "token" "ns1") [])
     = Some (Some (doesntExist "secret" "token" "ns1"))
  /\ runCall (clientOf vacant) (CallGetSecret "token" "ns1") []
     = runCall forbidding (CallGetSecret "token" "ns1") [].
Proof.
  split; [reflexivity|]. split; [reflexivity|].
  exact (proj1 (failed_calls_are_alike (clientOf vacant) forbidding
                  (CallGetSecret "token" "ns1") [] _ _ eq_refl eq_refl)).
Defined.

Lemma append_cancel_l (p x y : string) :
  (p ++ x)%string = (p ++ y)%string -> x = y.
Proof.
  induction p as [|c p IH]; cbn; intro H; [exact H|].
  injection H as H. now apply IH.
Qed.

Lemma length_append_string (a b : string) :
  String.length (a ++ b)%string = String.length a + String.length b.
Proof. induction a as [|c a IH]; cbn; [reflexivity|now rewrite IH]. Qed.

Lemma append_cancel_r (a b t : string) :
  (a ++ t)%string = (b ++ t)%string -> a = b.
Proof.
  revert b; induction a as [|c a IH]; intros [|d b] H; cbn in H.
  - reflexivity.
  - apply (f_equal String.length) in H. cbn in H.
    rewrite length_append_string in H. lia.
  - apply (f_equal String.length) in H. cbn in H.
    rewrite length_append_string in H. lia.
  - injection H as -> H. f_equal. now apply IH.
Qed.

(** Two texts without quote that are followed by a quote end at the same
    place. *)
Lemma split_at_quote (a b r r' : string) :
  quoteFree a = true -> quoteFree b = true ->
  (a ++ String "'" r)%string = (b ++ String "'" r')%string ->
  a = b /\ r = r'.
Proof.
  revert b; induction a as [|c a IH]; intros [|d b] Ha Hb H; cbn in *.
  - injection H as H. now split.
  - injection H as Hd _. subst d. discriminate Hb.
  - injection H as Hc _. subst c. discriminate Ha.
  - injection H as -> H.
    apply andb_prop in Ha as [_ Ha]. apply andb_prop in Hb as [_ Hb].
    destruct (IH b Ha Hb H) as [-> ->]. now split.
Qed.

Lemma errorString_inj (a b : string) : errorString a = errorString b -> a = b.
Proof. intro H. now injection H. Qed.

Lemma doesntExist_inj kind n ns n' ns' :
  quoteFree n = true -> quoteFree n' = true ->
  doesntExist kind n ns = doesntExist kind n' ns' -> n = n' /\ ns = ns'.
Proof.
  intros Hn Hn' H. unfold doesntExist in H. apply errorString_inj in H.
  apply (append_cancel_l "the "), (append_cancel_l kind),
    (append_cancel_l " '") in H.
  cbn in H.
  apply (split_at_quote n n') in H; [|assumption|assumption].
  destruct H as [-> H]. split; [reflexivity|].
  injection H as H.
  now apply append_cancel_r in H.
Qed.

Lemma doesntExistClusterWide_inj kind n n' :
  doesntExistClusterWide kind n = doesntExistClusterWide kind n' -> n = n'.
Proof.
  intro H. unfold doesntExistClusterWide in H. apply errorString_inj in H.
  apply (append_cancel_l "the "), (append_cancel_l kind),
    (append_cancel_l " '") in H.
  now apply append_cancel_r in H.
Qed.

Ltac same_call H Hn Hn' :=
  first [ apply doesntExistClusterWide_inj in H; subst; reflexivity
        | apply doesntExist_inj in H; [|exact Hn|exact Hn'];
          destruct H as [? ?]; subst; reflexivity ].

Ltac other_call H :=
  unfold doesntExist, doesntExistClusterWide in H; cbn in H; discriminate H.

Lemma failureText_inj k k' :
  quoteFree (calledName k) = true -> quoteFree (calledName k') = true ->
  failureText k = failureText k' -> k = k'.
Proof.
  intros Hn Hn' H.
  destruct k, k'; cbn [failureText calledName] in *;
    first [ same_call H Hn Hn' | other_call H ].
Qed.

(** X10.  The error of a typed fetch names the call that failed: when the names
    passed hold no single quote, two calls that return the same error, on
    whatever sessions, are the same fetch with the same name and the same
    namespace. *)
Theorem failure_identifies_call :
  forall client client' k k' tr tr' e,
    quoteFree (calledName k) = true ->
    quoteFree (calledName k') = true ->
    returned (runCall client k tr) = Some (Some e) ->
    returned (runCall client' k' tr') = Some (Some e) ->
    k = k'.
Proof.
  intros client client' k k' tr tr' e Hn Hn' H H'.
  rewrite (runCall_failure _ _ _ _ H) in H.
  rewrite (runCall_failure _ _ _ _ H') in H'.
  unfold returned in *; cbn in *.
  apply failureText_inj; congruence.
Qed.

Lemma failure_identifies_call_witness :
  quoteFree "web" = true
  /\ returned (runCall (clientOf vacant) (CallGetDeployment "web" "ns1") [])
     = Some (Some (doesntExist "deployment" "web" "ns1"))
  /\ returned (runCall forbidding (CallGetDeployment "web" "ns1")
                 [mkRequest ResPods (Some "ns1") "web-7c9d"])
     = Some (Some (doesntExist "deployment" "web" "ns1"))
  /\ CallGetDeployment "web" "ns1" = CallGetDeployment "web" "ns1".
Proof.
  split; [reflexivity|]. split; [reflexivity|]. split; [reflexivity|].
  exact (failure_identifies_call (clientOf vacant) forbidding
           (CallGetDeployment "web" "ns1") (CallGetDeployment "web" "ns1")
           [] [mkRequest ResPods (Some "ns1") "web-7c9d"] _
           eq_refl eq_refl eq_refl eq_refl).
Defined.

(** With a quote in the name the error no longer tells the name from the
    namespace. *)
Example quoted_names_collide :
  failureText (CallGetPod "a' in the namespace 'b" "c")
  = failureText (CallGetPod "a" "b' in the namespace 'c").
Proof. reflexivity. Qed.

(** ** The dispatch on the supported tags *)

Ltac dispatch_case run ctor :=
  let o := fresh "o" in
  let c := fresh "c" in
  let Ha := fresh "Ha" in
  cbn; unfold boxed, bind; rewrite run;
  match goal with
  | |- context [flattened _ ?a] => destruct a as [o [c|]] eqn:Ha
  end; cbn;
  eexists; eexists; eexists; (split; [reflexivity|]); cbn;
  repeat split; try (now left); try (now right); try congruence;
  let err := fresh "err" in
  let Herr := fresh "Herr" in
  intros err Herr; injection Herr as <-;
  eapply ctor; rewrite run, Ha; reflexivity.

(** X1.  On a tag of the enumeration [GetTarget] returns after exactly one read,
    for the name given and under the namespace given or none.  The value
    it returns holds a pointer of the kind that was read; with an error,
    that pointer is [nil] and the error is one of a typed fetch. *)
Theorem GetTarget_supported :
  forall client tag n ns tr,
    In tag ResourceTypeTags ->
    exists t e rq,
      GetTarget client tag n ns tr = (Return (Some t, e), tr ++ [rq])
      /\ reqName rq = n
      /\ (reqNamespace rq = Some ns \/ reqNamespace rq = None)
      /\ targetResource t = reqResource rq
      /\ (e <> None -> holdsNilPointer t = true)
      /\ (forall err, e = Some err -> NotFoundOrTransportError err).
Proof.
  intros client tag n ns tr Htag.
  unfold ResourceTypeTags in Htag; simpl in Htag.
  destruct Htag as [<-|[<-|[<-|[<-|[<-|[<-|[<-|[<-|[<-|[<-|[<-|[]]]]]]]]]]]].
  - dispatch_case GetNamespace_run (FromGetNamespace client n tr).
  - dispatch_case GetConfigMap_run (FromGetConfigMap client n ns tr).
  - dispatch_case GetSecret_run (FromGetSecret client n ns tr).
  - dispatch_case GetDeployment_run (FromGetDeployment client n ns tr).
  - dispatch_case GetDeployment_run (FromGetDeployment client n ns tr).
  - dispatch_case GetStatefulSet_run (FromGetStatefulSet client n ns tr).
  - dispatch_case GetReplicaSet_run (FromGetReplicaSet client n ns tr).
  - dispatch_case GetService_run (FromGetService client n ns tr).
  - dispatch_case GetServiceAccount_run (FromGetServiceAccount client n ns tr).
  - dispatch_case GetRole_run (FromGetRole client n ns tr).
  - dispatch_case GetClusterRole_run (FromGetClusterRole client n ns tr).
Qed.

Lemma GetTarget_supported_witness :
  In "secrets" ResourceTypeTags
  /\ exists t e rq,
       GetTarget (clientOf demo) "secrets" "token" "ns1" []
       = (Return (Some t, e), [rq])
       /\ targetResource t = reqResource rq.
Proof.
  assert (Htag : In "secrets" ResourceTypeTags) by (simpl; tauto).
  split; [exact Htag|].
  destruct (GetTarget_supported (clientOf demo) "secrets" "token" "ns1" [] Htag)
    as [t [e [rq [Hrun [_ [_ [Hres _]]]]]]].
  exists t, e, rq. split; [exact Hrun|exact Hres].
Defined.

Ltac boxes_case run :=
  let Hout := fresh "Hout" in
  cbn; unfold boxed, bind; rewrite run;
  match goal with
  | |- context [flattened ?f ?a] => destruct (flattened f a)
  end;
  eexists; eexists; (split; [reflexivity|]); cbn;
  split; [discriminate|]; intro Hout; exfalso; apply Hout;
  unfold ResourceTypeTags; simpl; tauto.

(** X2.  [GetTarget] returns the [nil] interface for the tags outside the
    enumeration and for no other: when the fetch of a supported tag fails,
    the value returned with the error is not [nil], it holds a [nil]
    pointer. *)
Theorem GetTarget_nil_interface_iff_unsupported :
  forall client tag n ns tr,
    exists r out,
      GetTarget client tag n ns tr = (Return r, out)
      /\ (fst r = None <-> ~ In tag ResourceTypeTags).
Proof.
  intros client tag n ns tr.
  destruct (in_dec string_dec tag ResourceTypeTags) as [Htag|Hout].
  - unfold ResourceTypeTags in Htag; simpl in Htag.
    destruct Htag as [<-|[<-|[<-|[<-|[<-|[<-|[<-|[<-|[<-|[<-|[<-|[]]]]]]]]]]]].
    + boxes_case GetNamespace_run.
    + boxes_case GetConfigMap_run.
    + boxes_case GetSecret_run.
    + boxes_case GetDeployment_run.
    + boxes_case GetDeployment_run.
    + boxes_case GetStatefulSet_run.
    + boxes_case GetReplicaSet_run.
    + boxes_case GetService_run.
    + boxes_case GetServiceAccount_run.
    + boxes_case GetRole_run.
    + boxes_case GetClusterRole_run.
  - unfold GetTarget.
    repeat (rewrite (untagged tag Hout) by known_tag).
    eexists; eexists; split; [reflexivity|].
    split; [intros _; exact Hout|reflexivity].
Qed.

Example failed_fetch_is_not_nil :
  GetTarget forbidding "secrets" "token" "ns1" []
  = (Return (Some (TSecret None), Some (doesntExist "secret" "token" "ns1")),
     [mkRequest ResSecrets (Some "ns1") "token"]).
Proof. reflexivity. Qed.

Lemma GetTarget_returns_held_witness :
  "deployments" <> "daemonsets"
  /\ sessionHolds (connect demo) "deployments" "web" "ns1"
     = Some (TDeployment (Some web))
  /\ returned (GetTarget (clientOf demo) "deployments" "web" "ns1" [])
     = Some (Some (TDeployment (Some web)), None).
Proof.
  assert (Hne : "deployments" <> "daemonsets") by discriminate.
  split; [exact Hne|]. split; [reflexivity|].
  exact (GetTarget_returns_held (clientOf demo) "deployments" "web" "ns1"
           (TDeployment (Some web)) [] Hne eq_refl).
Defined.

(** ** Owner resolution, beyond the failure of the fetch *)

Lemma resolvesHeld_intro {T : Type}
  (resolution : ptr corev1.Pod -> Api (answer T))
  (lookup : string -> string -> answer T) (res : Resource)
  (ownerFailure notFound : error)
  (p : corev1.Pod) (o : metav1.OwnerReference) (tr : list Request) :
  (let ns := metav1.ObjectMeta_Namespace (corev1.Pod_ObjectMeta p) in
   let name := metav1.OwnerReference_Name o in
   resolution (Some p) tr
   = (Return (resolved ownerFailure (flattened notFound (lookup ns name))),
      tr ++ [mkRequest res (Some ns) name])) ->
  resolvesHeld resolution lookup res p o tr.
Proof.
  intros Hrun d Hd. cbn in Hrun. rewrite Hrun, Hd. reflexivity.
Qed.

(** X4.  For a pod with an owner reference, each owner resolution returns the
    controller the session holds under the name of the first owner
    reference in the namespace of the pod, with no error, after the one
    read of that controller. *)
Theorem owner_resolution_returns_controller :
  forall (Pod_String : corev1.Pod -> string) client p o rest tr,
    metav1.ObjectMeta_OwnerReferences (corev1.Pod_ObjectMeta p) = o :: rest ->
    resolvesHeld (GetDeploymentFromPod Pod_String client)
                 (deployments (Client_Clientset client)) ResDeployments p o tr
    /\ resolvesHeld (GetDaemonsetFromPod Pod_String client)
                    (daemonSets (Client_Clientset client)) ResDaemonSets p o tr
    /\ resolvesHeld (GetStatefulsetFromPod Pod_String client)
                    (statefulSets (Client_Clientset client)) ResStatefulSets p o tr
    /\ resolvesHeld (GetReplicasetFromPod Pod_String client)
                    (replicaSets (Client_Clientset client)) ResReplicaSets p o tr.
Proof.
  intros Pod_String client p o rest tr Hp.
  split; [|split; [|split]]; eapply resolvesHeld_intro.
  - apply (GetDeploymentFromPod_run Pod_String client p o rest tr Hp).
  - apply (GetDaemonsetFromPod_run Pod_String client p o rest tr Hp).
  - apply (GetStatefulsetFromPod_run Pod_String client p o rest tr Hp).
  - apply (GetReplicasetFromPod_run Pod_String client p o rest tr Hp).
Qed.

Lemma owner_resolution_returns_controller_witness :
  metav1.ObjectMeta_OwnerReferences (corev1.Pod_ObjectMeta webPod)
  = [ownedBy "Deployment" "web"]
  /\ deployments (connect demo) "ns1" "web" = (Some web, None)
  /\ GetDeploymentFromPod podLabel (clientOf demo) (Some webPod) []
     = (Return (Some web, None), [mkRequest ResDeployments (Some "ns1") "web"]).
Proof.
  split; [reflexivity|]. split; [reflexivity|].
  exact (proj1 (owner_resolution_returns_controller podLabel (clientOf demo)
                  webPod (ownedBy "Deployment" "web") [] [] eq_refl)
               web eq_refl).
Defined.

Lemma ownerFailureIffNeither_intro {T : Type}
  (resolution : ptr corev1.Pod -> Api (answer T))
  (lookup : string -> string -> answer T) (read : Request)
  (ownerFailure notFound : error)
  (p : corev1.Pod) (o : metav1.OwnerReference) (tr : list Request) :
  (let ns := metav1.ObjectMeta_Namespace (corev1.Pod_ObjectMeta p) in
   let name := metav1.OwnerReference_Name o in
   resolution (Some p) tr
   = (Return (resolved ownerFailure (flattened notFound (lookup ns name))),
      tr ++ [read])) ->
  notFound <> ownerFailure ->
  ownerFailureIffNeither resolution lookup ownerFailure p o tr.
Proof.
  intros Hrun Hneq. unfold ownerFailureIffNeither. cbn in Hrun. rewrite Hrun.
  unfold returned; cbn.
  destruct (lookup _ _) as [[d|] [c|]]; cbn; split; intro H;
    try discriminate H; try reflexivity.
  - exfalso. apply Hneq. congruence.
  - exfalso. apply Hneq. congruence.
Qed.

(** X5.  For a pod with an owner reference, an owner resolution returns its own
    failure, the one that names the pod, exactly when the session answers
    the read of the controller with neither object nor error; the text
    names the kind, the pod as [%v] prints it and the namespace. *)
Theorem owner_failure_iff_session_answers_neither :
  forall (Pod_String : corev1.Pod -> string) client p o rest tr,
    metav1.ObjectMeta_OwnerReferences (corev1.Pod_ObjectMeta p) = o :: rest ->
    let ns := metav1.ObjectMeta_Namespace (corev1.Pod_ObjectMeta p) in
    ownerFailureIffNeither (GetDeploymentFromPod Pod_String client)
      (deployments (Client_Clientset client))
      (OwnerResolutionFailure "deployment" (Pod_String p) ns) p o tr
    /\ ownerFailureIffNeither (GetDaemonsetFromPod Pod_String client)
         (daemonSets (Client_Clientset client))
         (OwnerResolutionFailure "daemonset" (Pod_String p) ns) p o tr
    /\ ownerFailureIffNeither (GetStatefulsetFromPod Pod_String client)
         (statefulSets (Client_Clientset client))
         (OwnerResolutionFailure "statefulset" (Pod_String p) ns) p o tr
    /\ ownerFailureIffNeither (GetReplicasetFromPod Pod_String client)
         (replicaSets (Client_Clientset client))
         (OwnerResolutionFailure "replicaset" (Pod_String p) ns) p o tr.
Proof.
  intros Pod_String client p o rest tr Hp ns.
  split; [|split; [|split]]; eapply ownerFailureIffNeither_intro.
  - apply (GetDeploymentFromPod_run Pod_String client p o rest tr Hp).
  - owner_failure_differs.
  - apply (GetDaemonsetFromPod_run Pod_String client p o rest tr Hp).
  - owner_failure_differs.
  - apply (GetStatefulsetFromPod_run Pod_String client p o rest tr Hp).
  - owner_failure_differs.
  - apply (GetReplicasetFromPod_run Pod_String client p o rest tr Hp).
  - owner_failure_differs.
Qed.

Lemma owner_failure_iff_session_answers_neither_witness :
  metav1.ObjectMeta_OwnerReferences (corev1.Pod_ObjectMeta webPod)
  = [ownedBy "Deployment" "web"]
  /\ deployments (Client_Clientset mute) "ns1" "web" = (None, None)
  /\ returned (GetDeploymentFromPod podLabel mute (Some webPod) [])
     = Some (None,
             Some (errorString
                     "can't find the deployment for the pod'ns1/web-7c9d' in namespace 'ns1'")).
Proof.
  split; [reflexivity|]. split; [reflexivity|].
  exact (proj2 (proj1 (owner_failure_iff_session_answers_neither podLabel mute
                         webPod (ownedBy "Deployment" "web") [] [] eq_refl))
               eq_refl).
Defined.

(** With a clientset, the method on the struct is the method on the live
    client. *)
Lemma Receiver_with_clientset (Pod_String : corev1.Pod -> string)
  (client : ClientStruct) (cs : Clientset) (pod : ptr corev1.Pod)
  (tr : list Request) :
  ClientStruct_Clientset client = Some cs ->
  Receiver.GetDeploymentFromPod Pod_String client pod tr
  = GetDeploymentFromPod Pod_String (liveClient client cs) pod tr
  /\ Receiver.GetDaemonsetFromPod Pod_String client pod tr
     = GetDaemonsetFromPod Pod_String (liveClient client cs) pod tr
  /\ Receiver.GetStatefulsetFromPod Pod_String client pod tr
     = GetStatefulsetFromPod Pod_String (liveClient client cs) pod tr
  /\ Receiver.GetReplicasetFromPod Pod_String client pod tr
     = GetReplicasetFromPod Pod_String (liveClient client cs) pod tr.
Proof.
  intro Hcs.
  unfold Receiver.GetDeploymentFromPod, Receiver.GetDaemonsetFromPod,
    Receiver.GetStatefulsetFromPod, Receiver.GetReplicasetFromPod,
    Receiver.GetDeployment, Receiver.GetDaemonSet, Receiver.GetStatefulSet,
    Receiver.GetReplicaSet, throughClientset,
    GetDeploymentFromPod, GetDaemonsetFromPod, GetStatefulsetFromPod,
    GetReplicasetFromPod.
  rewrite Hcs.
  destruct pod as [p|]; [|repeat split].
  destruct (metav1.ObjectMeta_OwnerReferences (corev1.Pod_ObjectMeta p));
    repeat split.
Qed.

Lemma panicsExactly_intro {T : Type}
  (resolution : ClientStruct -> ptr corev1.Pod -> Api (answer T)) :
  (forall client tr, resolution client None tr = (Panic NilDereference, tr)) ->
  (forall client p tr,
      metav1.ObjectMeta_OwnerReferences (corev1.Pod_ObjectMeta p) = [] ->
      resolution client (Some p) tr = (Panic (IndexOutOfRange 0 0), tr)) ->
  (forall client p o rest tr,
      metav1.ObjectMeta_OwnerReferences (corev1.Pod_ObjectMeta p) = o :: rest ->
      ClientStruct_Clientset client = None ->
      resolution client (Some p) tr = (Panic NilDereference, tr)) ->
  (forall client cs p o rest tr,
      metav1.ObjectMeta_OwnerReferences (corev1.Pod_ObjectMeta p) = o :: rest ->
      ClientStruct_Clientset client = Some cs ->
      exists r out, resolution client (Some p) tr = (Return r, out)) ->
  panicsExactly resolution.
Proof.
  intros Hnil Hempty Hnocs Hrun client pod tr.
  destruct pod as [p|].
  - destruct (metav1.ObjectMeta_OwnerReferences (corev1.Pod_ObjectMeta p))
      as [|o rest] eqn:Hp.
    + pose proof (Hempty client p tr Hp) as Hpanic.
      repeat match goal with |- _ /\ _ => split end.
      * split; [intros _; left; exact Hp|intros _; rewrite Hpanic; now eexists].
      * intros _. now rewrite Hpanic.
      * discriminate.
      * intros q _ _. exact Hpanic.
      * intros q _ Hown. exfalso. apply Hown. exact Hp.
    + destruct (ClientStruct_Clientset client) as [cs|] eqn:Hcs.
      * destruct (Hrun client cs p o rest tr Hp Hcs) as [r [out Hr]].
        repeat match goal with |- _ /\ _ => split end.
        -- split.
           ++ rewrite Hr. intros [e He]. discriminate He.
           ++ intros [Hown|Hnone]; [cbn in Hown; congruence|discriminate Hnone].
        -- rewrite Hr. intros [e He]. discriminate He.
        -- discriminate.
        -- intros q _ Hown. cbn in Hown. congruence.
        -- intros q _ _ Hnone. discriminate Hnone.
      * pose proof (Hnocs client p o rest tr Hp Hcs) as Hpanic.
        repeat match goal with |- _ /\ _ => split end.
        -- split; [intros _; now right|intros _; rewrite Hpanic; now eexists].
        -- intros _. now rewrite Hpanic.
        -- discriminate.
        -- intros q _ Hown. cbn in Hown. congruence.
        -- intros q _ _ _. exact Hpanic.
  - pose proof (Hnil client tr) as Hpanic.
    repeat match goal with |- _ /\ _ => split end.
    + split; [intros _; left; exact I|intros _; rewrite Hpanic; now eexists].
    + intros _. now rewrite Hpanic.
    + intros _. exact Hpanic.
    + discriminate.
    + discriminate.
Qed.

Ltac panics_without_clientset :=
  let Hp := fresh "Hp" in
  let Hcs := fresh "Hcs" in
  intros ? ? ? ? ? Hp Hcs;
  unfold Receiver.GetDeploymentFromPod, Receiver.GetDaemonsetFromPod,
    Receiver.GetStatefulsetFromPod, Receiver.GetReplicasetFromPod,
    Receiver.GetDeployment, Receiver.GetDaemonSet, Receiver.GetStatefulSet,
    Receiver.GetReplicaSet, throughClientset, deref, bind, ret;
  rewrite Hp, Hcs; reflexivity.

Ltac panics_without_owner :=
  let Hp := fresh "Hp" in
  intros ? ? ? Hp;
  unfold Receiver.GetDeploymentFromPod, Receiver.GetDaemonsetFromPod,
    Receiver.GetStatefulsetFromPod, Receiver.GetReplicasetFromPod,
    deref, bind, ret;
  rewrite Hp; reflexivity.

(** X6.  Each of the four owner resolutions, on the receiver as the source
    has it, panics exactly when the pod is [nil] (nil dereference), the pod
    has no owner reference (index 0 out of range with length 0), or the
    clientset of the receiver is [nil] (nil dereference), the clientset
    being looked at last; the panic comes before any read is issued. *)
Theorem owner_resolution_panics_exactly :
  forall Pod_String : corev1.Pod -> string,
    panicsExactly (Receiver.GetDeploymentFromPod Pod_String)
    /\ panicsExactly (Receiver.GetDaemonsetFromPod Pod_String)
    /\ panicsExactly (Receiver.GetStatefulsetFromPod Pod_String)
    /\ panicsExactly (Receiver.GetReplicasetFromPod Pod_String).
Proof.
  intros Pod_String.
  split; [|split; [|split]]; apply panicsExactly_intro;
    try (intros client tr; reflexivity);
    try panics_without_owner;
    try panics_without_clientset;
    intros client cs p o rest tr Hp Hcs;
    destruct (Receiver_with_clientset Pod_String client cs (Some p) tr Hcs)
      as [Hd [Hds [Hss Hrs]]].
  - rewrite Hd, (GetDeploymentFromPod_run Pod_String _ p o rest tr Hp). eauto.
  - rewrite Hds, (GetDaemonsetFromPod_run Pod_String _ p o rest tr Hp). eauto.
  - rewrite Hss, (GetStatefulsetFromPod_run Pod_String _ p o rest tr Hp). eauto.
  - rewrite Hrs, (GetReplicasetFromPod_run Pod_String _ p o rest tr Hp). eauto.
Qed.

(** The client a failed [Init] leaves has no clientset: a resolution on it
    panics on an owned pod too. *)
Example resolution_after_failed_Init :
  match initClient (Init inCluster loadsFile noServiceAccount accepts working) with
  | Some client => Receiver.GetDeploymentFromPod podLabel client (Some webPod) []
  | None => (Return (None, None), [])
  end
  = (Panic NilDereference, []).
Proof. reflexivity. Qed.

Example resolution_after_Init :
  match initClient (Init fromFile loadsFile noServiceAccount accepts None) with
  | Some client => Receiver.GetDeploymentFromPod podLabel client (Some webPod) []
  | None => (Return (None, None), [])
  end
  = (Return (Some web, None), [mkRequest ResDeployments (Some "ns1") "web"]).
Proof. reflexivity. Qed.

Lemma agreesWithDispatch_intro {T : Type} (box : ptr T -> Target)
  (resolution fetch : Api (answer T)) (read : Request)
  (ownerFailure notFound : error) (a : answer T) (tr : list Request) :
  resolution tr
  = (Return (resolved ownerFailure (flattened notFound a)), tr ++ [read]) ->
  fetch tr = (Return (flattened notFound a), tr ++ [read]) ->
  agreesWithDispatch box resolution (boxed box fetch) tr.
Proof.
  intros Hres Hfetch. unfold agreesWithDispatch, boxed, bind, trace, returned.
  rewrite Hres, Hfetch.
  destruct a as [[d|] [c|]]; cbn; repeat split;
    try discriminate; try congruence;
    intros; match goal with
            | H : Some _ = Some _ |- _ => inversion H; subst; reflexivity
            end.
Qed.

(** X7.  For a pod with an owner reference, the resolutions of deployments,
    statefulsets and replicasets issue the read [GetTarget] issues under
    the tag of their kind for the owner's name and the pod's namespace;
    the controller one returns the other returns boxed, and the error the
    dispatch returns is the error of the resolution. *)
Theorem owner_resolution_agrees_with_dispatch :
  forall (Pod_String : corev1.Pod -> string) client p o rest tr,
    metav1.ObjectMeta_OwnerReferences (corev1.Pod_ObjectMeta p) = o :: rest ->
    let name := metav1.OwnerReference_Name o in
    let ns := metav1.ObjectMeta_Namespace (corev1.Pod_ObjectMeta p) in
    agreesWithDispatch TDeployment
      (GetDeploymentFromPod Pod_String client (Some p))
      (GetTarget client "deployments" name ns) tr
    /\ agreesWithDispatch TStatefulSet
         (GetStatefulsetFromPod Pod_String client (Some p))
         (GetTarget client "statefulsets" name ns) tr
    /\ agreesWithDispatch TReplicaSet
         (GetReplicasetFromPod Pod_String client (Some p))
         (GetTarget client "replicasets" name ns) tr.
Proof.
  intros Pod_String client p o rest tr Hp name ns.
  split; [|split].
  - change (GetTarget client "deployments" name ns)
      with (boxed TDeployment (GetDeployment client name ns)).
    eapply agreesWithDispatch_intro.
    + apply (GetDeploymentFromPod_run Pod_String client p o rest tr Hp).
    + apply GetDeployment_run.
  - change (GetTarget client "statefulsets" name ns)
      with (boxed TStatefulSet (GetStatefulSet client name ns)).
    eapply agreesWithDispatch_intro.
    + apply (GetStatefulsetFromPod_run Pod_String client p o rest tr Hp).
    + apply GetStatefulSet_run.
  - change (GetTarget client "replicasets" name ns)
      with (boxed TReplicaSet (GetReplicaSet client name ns)).
    eapply agreesWithDispatch_intro.
    + apply (GetReplicasetFromPod_run Pod_String client p o rest tr Hp).
    + apply GetReplicaSet_run.
Qed.

Lemma owner_resolution_agrees_with_dispatch_witness :
  metav1.ObjectMeta_OwnerReferences (corev1.Pod_ObjectMeta webPod)
  = [ownedBy "Deployment" "web"]
  /\ returned (GetDeploymentFromPod podLabel (clientOf demo) (Some webPod) [])
     = Some (Some web, None)
  /\ returned (GetTarget (clientOf demo) "deployments" "web" "ns1" [])
     = Some (Some (TDeployment (Some web)), None).
Proof.
  split; [reflexivity|]. split; [reflexivity|].
  destruct (owner_resolution_agrees_with_dispatch podLabel (clientOf demo)
              webPod (ownedBy "Deployment" "web") [] [] eq_refl)
    as [[_ [Hsame _]] _].
  exact (Hsame web eq_refl).
Defined.

(** The resolution of daemonsets has no such twin: on a session that holds
    the daemonset, it returns it while the dispatch returns an error. *)
Example daemonset_resolution_and_dispatch_differ :
  returned (GetDaemonsetFromPod podLabel (clientOf demo)
              (Some {| corev1.Pod_ObjectMeta :=
                         {| metav1.ObjectMeta_Name := "fluentd-x2k";
                            metav1.ObjectMeta_Namespace := "kube-system";
                            metav1.ObjectMeta_OwnerReferences :=
                              [ownedBy "DaemonSet" "fluentd"] |};
                       corev1.Pod_Spec := {| corev1.PodSpec_Containers := [] |} |}) [])
  = Some (Some fluentd, None)
  /\ returned (GetTarget (clientOf demo) "daemonsets" "fluentd" "kube-system" [])
     = Some (Some (TDeployment None),
             Some (doesntExist "deployment" "fluentd" "kube-system")).
Proof. split; reflexivity. Qed.

(** ** From [GetPod] to [GetContainers] *)

(** X8.  The pod pointer [GetPod] returns, handed to [GetContainers]: when the
    read failed the pointer is [nil] and [GetContainers] panics; when the
    session holds the pod, [GetContainers] returns the names of its
    containers. *)
Theorem GetContainers_after_GetPod :
  forall client n ns tr,
    exists p e,
      GetPod client n ns tr = (Return (p, e), tr ++ [mkRequest ResPods (Some ns) n])
      /\ (e <> None -> GetContainers p = Panic NilDereference)
      /\ (forall pod,
            pods (Client_Clientset client) ns n = (Some pod, None) ->
            e = None
            /\ GetContainers p
               = Return (map corev1.Container_Name
                             (corev1.PodSpec_Containers (corev1.Pod_Spec pod)))).
Proof.
  intros client n ns tr. rewrite GetPod_run.
  destruct (pods _ ns n) as [[pod|] [c|]]; cbn;
    eexists; eexists; (split; [reflexivity|]); split;
    try reflexivity; try congruence; intros pod' H; inversion H; subst.
  split; [reflexivity|]. unfold GetContainers. now rewrite append_loop.
Qed.

Lemma GetContainers_after_GetPod_witness :
  pods (connect demo) "ns1" "web-7c9d" = (Some webPod, None)
  /\ exists p,
       GetPod (clientOf demo) "web-7c9d" "ns1" []
       = (Return (p, None), [mkRequest ResPods (Some "ns1") "web-7c9d"])
       /\ GetContainers p = Return ["app"; "sidecar"].
Proof.
  split; [reflexivity|].
  destruct (GetContainers_after_GetPod (clientOf demo) "web-7c9d" "ns1" [])
    as [p [e [Hrun [_ Hheld]]]].
  destruct (Hheld webPod eq_refl) as [He Hnames]. subst e.
  exists p. split; [exact Hrun|exact Hnames].
Defined.

(** ** The read of [GetClusterRole] *)

Lemma GetClusterRole_read_ignores_namespace_witness :
  snd (clusterRoles (connect governed) "admin") = None
  /\ GetClusterRole (clientOf governed) "admin" "ns1" []
     = GetClusterRole (clientOf governed) "admin" "kube-system" [].
Proof.
  split; [reflexivity|].
  exact (proj2 (proj2 (GetClusterRole_read_ignores_namespace (clientOf governed)
                         "admin" "ns1" "kube-system" []))
               eq_refl).
Defined.

(** ** [Init] and the package client *)

Ltac run_init :=
  unfold Init, GetClient; cbn;
  repeat match goal with
         | |- context [negb (?s =? "")] =>
             let E := fresh "E" in destruct (String.eqb_spec s "") as [E|E]; cbn
         | |- context [let '(_, _) := ?x in _] =>
             let rc := fresh "rc" in
             let e := fresh "e" in
             destruct x as [rc [e|]] eqn:?; cbn
         end.

(** X12.  [Init] takes the configuration of the cluster from the kubeconfig file
    exactly when the configured path is not empty, with an empty master
    URL and that path, and from the in-cluster environment exactly when it
    is empty: one of the two is asked, never both. *)
Theorem Init_configuration_source :
  forall config build incluster new prior,
    let run := Init (Some config) build incluster new prior in
    let path := configuration.Configuration_KubeConfig config in
    (In CallInClusterConfig (initCalls run) <-> path = "")
    /\ (forall m p, In (CallBuildConfigFromFlags m p) (initCalls run)
                    <-> (path <> "" /\ m = "" /\ p = path)).
Proof.
  intros config build incluster new prior.
  run_init; (split; [|intros m p]); split; cbn; intro H;
    repeat match goal with
           | H : _ \/ _ |- _ => destruct H
           | H : _ /\ _ |- _ => destruct H
           | H : False |- _ => destruct H
           end;
    try discriminate; try congruence; try tauto;
    try match goal with
        | H : CallBuildConfigFromFlags _ _ = CallBuildConfigFromFlags _ _ |- _ =>
            inversion H; subst; tauto
        end;
    subst; tauto.
Qed.

(** X13.  [Init] returns no error exactly when the configuration is built and
    the clientset is created without error.  An error of the first step is
    returned unchanged and the clientset is then not asked for; otherwise
    the clientset is asked for with the configuration built and the outcome
    of that step is returned. *)
Theorem Init_returns_first_error :
  forall config build incluster new prior,
    let run := Init (Some config) build incluster new prior in
    let path := configuration.Configuration_KubeConfig config in
    let built := if negb (path =? "") then build "" path else incluster in
    (initReturn run = Return None
     <-> snd built = None /\ snd (new (fst built)) = None)
    /\ (forall e, snd built = Some e ->
                  initReturn run = Return (Some e)
                  /\ forall c, ~ In (CallNewForConfig c) (initCalls run))
    /\ (snd built = None ->
        initReturn run = Return (snd (new (fst built)))
        /\ In (CallNewForConfig (fst built)) (initCalls run)).
Proof.
  intros config build incluster new prior.
  run_init;
    repeat match goal with
           | H : _ = (_, _) |- _ => rewrite ?H in *; clear H
           end; cbn;
    repeat split; cbn in *; intros;
    try match goal with
        | |- ~ _ => let Hin := fresh "Hin" in intro Hin
        end;
    repeat match goal with
           | H : _ /\ _ |- _ => destruct H
           | H : _ \/ _ |- _ => destruct H
           | H : False |- _ => destruct H
           end;
    try discriminate; try congruence; try tauto.
Qed.

Lemma Init_returns_first_error_witness :
  snd noServiceAccount = Some (errorString "unable to load in-cluster configuration")
  /\ initReturn (Init inCluster loadsFile noServiceAccount accepts None)
     = Return (Some (errorString "unable to load in-cluster configuration")).
Proof.
  split; [reflexivity|].
  exact (proj1 (proj1 (proj2 (Init_returns_first_error
                                {| configuration.Configuration_KubeConfig := "" |}
                                loadsFile noServiceAccount accepts None))
                      _ eq_refl)).
Defined.

(** X14.  [Init] always puts a new client in the package variable, whatever was
    there: [GetClient] is not [nil] afterwards and nothing of the former
    client is kept.  When the configuration cannot be read or built the new
    client has no clientset, also when a working client was in place; when
    it is built the client holds it with what the creation of the clientset
    returned. *)
Theorem Init_replaces_client :
  forall getconfig build incluster new prior,
    let run := Init getconfig build incluster new prior in
    exists c,
      GetClient (initClient run) = Some c
      /\ run = Init getconfig build incluster new None
      /\ (getconfig = None ->
          initReturn run = Panic NilDereference
          /\ ClientStruct_Clientset c = None
          /\ ClientStruct_RestConfig c = None)
      /\ (forall config,
            getconfig = Some config ->
            let path := configuration.Configuration_KubeConfig config in
            let built := if negb (path =? "") then build "" path else incluster in
            ClientStruct_RestConfig c = fst built
            /\ (snd built <> None -> ClientStruct_Clientset c = None)
            /\ (snd built = None ->
                ClientStruct_Clientset c = fst (new (fst built)))).
Proof.
  intros getconfig build incluster new prior.
  destruct getconfig as [config|].
  - run_init;
      repeat match goal with
             | H : _ = (_, _) |- _ => rewrite ?H in *
             end;
      eexists; (split; [reflexivity|]); (split; [reflexivity|]);
      (split; [discriminate|]);
      intros config' Hc; injection Hc as <-; cbn;
      repeat match goal with
             | |- context [negb (?s =? "")] =>
                 destruct (String.eqb_spec s ""); cbn; try contradiction
             end;
      repeat match goal with
             | H : ?x = (_, _) |- context [?x] => rewrite H; cbn
             end;
      repeat split; try congruence; try reflexivity.
  - cbn. eexists. split; [reflexivity|]. split; [reflexivity|].
    split; [intros _; repeat split|discriminate].
Qed.

Lemma Init_replaces_client_witness :
  inCluster = Some {| configuration.Configuration_KubeConfig := "" |}
  /\ snd noServiceAccount <> None
  /\ exists c,
       GetClient (initClient (Init inCluster loadsFile noServiceAccount accepts working))
       = Some c
       /\ ClientStruct_Clientset c = None.
Proof.
  split; [reflexivity|].
  assert (Hfail : snd noServiceAccount <> None) by discriminate.
  split; [exact Hfail|].
  destruct (Init_replaces_client inCluster loadsFile noServiceAccount accepts working)
    as [c [Hc [_ [_ Hbuilt]]]].
  exists c. split; [exact Hc|].
  exact (proj1 (proj2 (Hbuilt _ eq_refl)) Hfail).
Defined.

Example Init_from_file :
  Init fromFile loadsFile noServiceAccount accepts None
  = {| initReturn := Return None;
       initClient := Some {| ClientStruct_Clientset := Some (connect demo);
                             ClientStruct_RestConfig := Some "https://10.96.0.1:443" |};
       initCalls := [CallGetConfiguration;
                     CallBuildConfigFromFlags "" "/etc/talon/kubeconfig";
                     CallNewForConfig (Some "https://10.96.0.1:443")] |}.
Proof. reflexivity. Qed.
